(** * Audio to transcript and summary: the three page scripts

    A shallow embedding of [bart_model.py], [w2v_bart.py] and [whisp_t5.py].
    Each script is one run of a Streamlit page: it reads the widgets of the
    run, mutates [st.session_state], stages audio in temporary files, calls
    the speech and summarisation models, and renders elements.  The models,
    pydub, tempfile and the file system calls that can fail are external:
    they are the fields of [Externals], and a script is a function of them.

    A run is a computation in a state-and-exception monad over [World]:
    the file system, the session dictionary, the script's variables, the
    rendered page and the log of effects in the order they happened. *)

From Stdlib Require Import ZArith NArith List String Ascii Bool Lia.
From Stdlib.Strings Require Import Byte.
From stdpp Require Import gmap strings list fin_maps.

Local Open Scope string_scope.
Local Open Scope list_scope.

(** ** Python values *)

(** A Python [str] is a sequence of Unicode code points. *)
Abbreviation pystr := (list N).

(** A string literal of the source, as code points (ASCII literals only). *)
Definition lit (s : string) : pystr :=
  map N_of_ascii (list_ascii_of_string s).

(** [io.BytesIO]: the bytes, the read cursor and the [name] attribute the
    record handler sets. *)
Record BytesIO := mkBytesIO {
  getvalue : list byte;
  tell : nat;
  bio_name : option string
}.

Definition BytesIO_new (data : list byte) : BytesIO :=
  mkBytesIO data 0 None.

Definition BytesIO_seek (pos : nat) (b : BytesIO) : BytesIO :=
  mkBytesIO (getvalue b) pos (bio_name b).

(** [b.read()]: everything from the cursor on; the cursor moves to the end. *)
Definition BytesIO_read (b : BytesIO) : list byte * BytesIO :=
  (drop (tell b) (getvalue b),
   mkBytesIO (getvalue b) (Nat.max (tell b) (length (getvalue b))) (bio_name b)).

(** [b.write(data)]: overwrites from the cursor on; a cursor past the end
    is reached with zero bytes first. *)
Definition BytesIO_write (data : list byte) (b : BytesIO) : BytesIO :=
  mkBytesIO (take (tell b) (getvalue b)
               ++ replicate (tell b - length (getvalue b)) x00
               ++ data
               ++ drop (tell b + length data) (getvalue b))
            (tell b + length data) (bio_name b).

Definition BytesIO_set_name (n : string) (b : BytesIO) : BytesIO :=
  mkBytesIO (getvalue b) (tell b) (Some n).

(** The values the scripts keep in variables and in the session. *)
Inductive value :=
| PyNone
| PyBytesIO (b : BytesIO)
| PyStr (s : pystr)
| PyPath (p : string).

(** Python truthiness: [None] and empty strings are false, a [BytesIO]
    object is always true. *)
Definition truthy (v : value) : bool :=
  match v with
  | PyNone => false
  | PyBytesIO _ => true
  | PyStr s => match s with [] => false | _ => true end
  | PyPath p => match p with EmptyString => false | _ => true end
  end.

(** Exceptions.  [Exception] stands for whatever a collaborator or an I/O
    call raises; all three are caught by [except Exception]. *)
Inductive exn :=
| Exception (msg : pystr)
| UnicodeEncodeError (msg : pystr)
| NameError (name : string).

(** [f"{e}"] *)
Definition exn_str (e : exn) : pystr :=
  match e with
  | Exception m => m
  | UnicodeEncodeError m => m
  | NameError n => lit "name '" ++ lit n ++ lit "' is not defined"
  end.

(** ** pydub's AudioSegment *)

Record AudioSegment := mkSegment {
  frame_rate : Z;
  channels : Z;
  raw_data : list byte
}.

(** ** Elements rendered on the page

    The page of a run is the sequence of these elements.  The fixed layout
    of the scripts ([st.set_page_config], [st.title], [st.markdown],
    [st.caption]) and the spinners carry no data of the run and are not
    recorded. *)

Inductive Element :=
| st_audio (data : list byte) (format : string)
| st_error (msg : pystr)
| st_success (msg : pystr)
| st_info (msg : pystr)
| st_warning (msg : pystr)
| st_subheader (msg : pystr)
| st_code (body : value)
| st_write (body : value)
| st_download_button (label : pystr) (data : value) (file_name mime : string).

(** ** The log of effects *)

Inductive Event :=
| EvNamedTemporaryFile (suffix : string)
| EvFileWrite (path : string) (data : list byte)
| EvRemove (path : string)
| EvFromFile (path : string)
| EvSetFrameRate (rate : Z)
| EvSetChannels (n : Z)
| EvExport (format : string)
| EvLoadAudio (path : string)
| EvTranscribe (audio_np : list Z)
| EvAsrPipeline (path : string)
| EvSummarizer (text : pystr) (max_length min_length : Z) (do_sample : bool)
| EvSessionSet (key : string) (v : value).

(** ** External collaborators

    Every field is a call the scripts make into a library; [inl e] is the
    call raising [e].  The file system is passed to the calls that read a
    path.  [audio_np] of whisper is a sample array, only handed from
    [whisper.load_audio] to [transcribe]. *)
Record Externals := mkExternals {
  (* tempfile.NamedTemporaryFile(delete=False, suffix=...): the new path *)
  ext_NamedTemporaryFile : gmap string (list byte) → string → exn + string;
  (* file.write(data) on the temporary file: None is success *)
  ext_file_write : string → list byte → option exn;
  (* AudioSegment.from_file(path) *)
  ext_from_file : gmap string (list byte) → string → exn + AudioSegment;
  (* audioop.ratecv and the channel conversion behind set_frame_rate and
     set_channels *)
  ext_ratecv : AudioSegment → Z → list byte;
  ext_remix : AudioSegment → Z → list byte;
  (* audio_segment.export(buffer, format=...): the bytes written *)
  ext_export : AudioSegment → string → exn + list byte;
  (* f"{audio_segment.duration_seconds:.2f}" *)
  ext_duration_2f : AudioSegment → pystr;
  (* whisper.load_audio(path) *)
  ext_load_audio : gmap string (list byte) → string → exn + list Z;
  (* whisper_model.transcribe(audio_np)['text'] *)
  ext_transcribe : list Z → exn + pystr;
  (* asr_pipeline(path)["text"] *)
  ext_asr_pipeline : gmap string (list byte) → string → exn + pystr;
  (* summarizer_pipeline(text, max_length, min_length, do_sample)[0]['summary_text'] *)
  ext_summarizer : pystr → Z → Z → bool → exn + pystr
}.

(** ** The world of one run *)

Record World := mkWorld {
  fs : gmap string (list byte);          (* existing paths and their bytes *)
  session_state : gmap string value;     (* st.session_state *)
  vars : gmap string value;              (* the script's own variables *)
  page : list Element;                   (* rendered elements, in order *)
  log : list Event                       (* effects, in order *)
}.

Inductive res (A : Type) :=
| Ok (a : A)
| Raise (e : exn).
Arguments Ok {A} a.
Arguments Raise {A} e.

Definition M (A : Type) : Type := World → res A * World.

#[global] Instance M_ret : MRet M := λ A a w, (Ok a, w).
#[global] Instance M_bind : MBind M := λ A B f m w,
  match m w with
  | (Ok a, w') => f a w'
  | (Raise e, w') => (Raise e, w')
  end.

Definition raise {A} (e : exn) : M A := λ w, (Raise e, w).

(** [try: body / except Exception as e: handler e] *)
Definition try_except (body : M unit) (handler : exn → M unit) : M unit :=
  λ w, match body w with
       | (Ok a, w') => (Ok a, w')
       | (Raise e, w') => handler e w'
       end.

(** [try: body / finally: final]: [final] always runs; when it raises, its
    exception replaces the outcome of [body]. *)
Definition try_finally (body : M unit) (final : M unit) : M unit :=
  λ w, match body w with
       | (r, w') =>
           match final w' with
           | (Ok _, w'') => (r, w'')
           | (Raise e, w'') => (Raise e, w'')
           end
       end.

Definition try_except_finally (body : M unit) (handler : exn → M unit)
    (final : M unit) : M unit :=
  try_finally (try_except body handler) final.

(** *** Primitive effects *)

Definition emit (ev : Event) : M unit :=
  λ w, (Ok tt, mkWorld (fs w) (session_state w) (vars w) (page w) (log w ++ [ev])).

Definition st (el : Element) : M unit :=
  λ w, (Ok tt, mkWorld (fs w) (session_state w) (vars w) (page w ++ [el]) (log w)).

Definition get_fs : M (gmap string (list byte)) := λ w, (Ok (fs w), w).

Definition put_fs (f : gmap string (list byte)) : M unit :=
  λ w, (Ok tt, mkWorld f (session_state w) (vars w) (page w) (log w)).

Definition get_session : M (gmap string value) := λ w, (Ok (session_state w), w).

Definition put_session (s : gmap string value) : M unit :=
  λ w, (Ok tt, mkWorld (fs w) s (vars w) (page w) (log w)).

(** [st.session_state.key = v] *)
Definition session_set (key : string) (v : value) : M unit :=
  s ← get_session; put_session (<[key := v]> s);; emit (EvSessionSet key v).

(** [name = v] *)
Definition set_var (name : string) (v : value) : M unit :=
  λ w, (Ok tt, mkWorld (fs w) (session_state w) (<[name := v]> (vars w)) (page w) (log w)).

(** Reading a variable; an unbound name raises [NameError]. *)
Definition get_var (name : string) : M value :=
  λ w, match vars w !! name with
       | Some v => (Ok v, w)
       | None => (Raise (NameError name), w)
       end.

Definition lift_ext {A} (r : exn + A) : M A :=
  match r with
  | inl e => raise e
  | inr a => mret a
  end.

(** ** os.path.splitext *)

(** The parts before and after the last [c] of [s]. *)
Fixpoint rsplit (c : ascii) (s : string) : option (string * string) :=
  match s with
  | EmptyString => None
  | String a r =>
      match rsplit c r with
      | Some (x, y) => Some (String a x, y)
      | None => if Ascii.eqb a c then Some (EmptyString, r) else None
      end
  end.

Fixpoint all_dots (s : string) : bool :=
  match s with
  | EmptyString => true
  | String a r => Ascii.eqb a "." && all_dots r
  end.

(** [os.path.splitext(name)[1]]: the extension starts at the last dot of
    the last path component, leading dots of the component aside. *)
Definition splitext_ext (name : string) : string :=
  let base := match rsplit "/" name with Some (_, b) => b | None => name end in
  match rsplit "." base with
  | Some (stem, e) => if all_dots stem then EmptyString else String "." e
  | None => EmptyString
  end.

(** ** Widgets of one run

    A run reads its widgets as returned values.  The keys under which
    Streamlit and [mic_recorder] keep the state of their widgets in
    [st.session_state] ([audio_source_radio], [mic_recorder] and the keys
    derived from it) are written by those libraries, not by the scripts,
    and are not in [session_state] here. *)

Inductive Source := UploadAudioFile | RecordLiveAudio.

Record UploadedFile := mkUploadedFile {
  uf_name : string;
  uf_type : string;
  uf_data : list byte
}.

(** What [mic_recorder] returns: [None], or a dict that may hold ['bytes']. *)
Inductive MicOutput :=
| MicNone
| MicDict (bytes : option (list byte)).

Record Widgets := mkWidgets {
  audio_source_option : Source;
  uploaded_file : option UploadedFile;
  recorded : MicOutput;
  process_button : bool
}.

Section Scripts.

Context (ext : Externals).

(** ** Calls into the libraries *)

(** [with tempfile.NamedTemporaryFile(delete=False, suffix=...) as f]: a
    new empty file that stays on disk after the block.  The creation and
    the write are the calls that can fail; closing the file at the end of
    the block is taken to succeed. *)
Definition NamedTemporaryFile (suffix : string) : M string :=
  emit (EvNamedTemporaryFile suffix);;
  f ← get_fs;
  p ← lift_ext (ext_NamedTemporaryFile ext f suffix);
  put_fs (<[p := []]> f);;
  mret p.

Definition file_write (p : string) (data : list byte) : M unit :=
  emit (EvFileWrite p data);;
  match ext_file_write ext p data with
  | Some e => raise e
  | None => f ← get_fs; put_fs (<[p := data]> f)
  end.

Definition os_path_exists (p : string) : M bool :=
  f ← get_fs;
  mret (match f !! p with Some _ => true | None => false end).

Definition os_remove (p : string) : M unit :=
  emit (EvRemove p);;
  f ← get_fs;
  match f !! p with
  | Some _ => put_fs (delete p f)
  | None => raise (Exception (lit "FileNotFoundError"))
  end.

Definition AudioSegment_from_file (p : string) : M AudioSegment :=
  emit (EvFromFile p);;
  f ← get_fs;
  lift_ext (ext_from_file ext f p).

(** pydub returns the segment itself when the rate is already the one
    asked for, and a converted copy otherwise; the same for channels. *)
Definition with_frame_rate (rate : Z) (seg : AudioSegment) : AudioSegment :=
  if Z.eqb (frame_rate seg) rate then seg
  else mkSegment rate (channels seg) (ext_ratecv ext seg rate).

Definition with_channels (n : Z) (seg : AudioSegment) : AudioSegment :=
  if Z.eqb (channels seg) n then seg
  else mkSegment (frame_rate seg) n (ext_remix ext seg n).

Definition set_frame_rate (rate : Z) (seg : AudioSegment) : M AudioSegment :=
  emit (EvSetFrameRate rate);;
  mret (with_frame_rate rate seg).

Definition set_channels (n : Z) (seg : AudioSegment) : M AudioSegment :=
  emit (EvSetChannels n);;
  mret (with_channels n seg).

(** [seg.export(buf, format=...)] writes the encoded bytes into [buf]. *)
Definition export (seg : AudioSegment) (buf : BytesIO) (format : string)
  : M BytesIO :=
  emit (EvExport format);;
  data ← lift_ext (ext_export ext seg format);
  mret (BytesIO_write data buf).

Definition whisper_load_audio (p : string) : M (list Z) :=
  emit (EvLoadAudio p);;
  f ← get_fs;
  lift_ext (ext_load_audio ext f p).

Definition whisper_transcribe (audio_np : list Z) : M pystr :=
  emit (EvTranscribe audio_np);;
  lift_ext (ext_transcribe ext audio_np).

Definition asr_pipeline (p : string) : M pystr :=
  emit (EvAsrPipeline p);;
  f ← get_fs;
  lift_ext (ext_asr_pipeline ext f p).

Definition summarizer_pipeline (text : pystr) (max_length min_length : Z)
    (do_sample : bool) : M pystr :=
  emit (EvSummarizer text max_length min_length do_sample);;
  lift_ext (ext_summarizer ext text max_length min_length do_sample).

(** A method call on the [BytesIO] object that [st.session_state[key]]
    refers to.  The object is shared with the session, so the call is seen
    there; it is not an assignment to the key. *)
Definition on_buffer {A} (key : string) (method : BytesIO → A * BytesIO) : M A :=
  s ← get_session;
  match s !! key with
  | Some (PyBytesIO b) =>
      put_session (<[key := PyBytesIO (method b).2]> s);;
      mret (method b).1
  | _ => raise (Exception (lit "AttributeError"))
  end.

Definition buffer_seek (key : string) (pos : nat) : M unit :=
  on_buffer key (λ b, (tt, BytesIO_seek pos b)).

Definition buffer_read (key : string) : M (list byte) :=
  on_buffer key BytesIO_read.

(** [st.session_state.key], [None] standing for a missing key where the
    scripts never read one. *)
Definition session_get (key : string) : M value :=
  s ← get_session;
  match s !! key with
  | Some v => mret v
  | None => raise (Exception (lit "AttributeError"))
  end.

(** [if key not in st.session_state: st.session_state.key = None] *)
Definition session_default (key : string) : M unit :=
  s ← get_session;
  match s !! key with
  | Some _ => mret tt
  | None => session_set key PyNone
  end.

Definition when (b : bool) (body : M unit) : M unit :=
  if b then body else mret tt.

(** [os.path.exists(v)] and [os.remove(v)] on the value of a variable. *)
Definition as_path (v : value) : M string :=
  match v with
  | PyPath p => mret p
  | _ => raise (Exception (lit "TypeError"))
  end.

Definition path_exists (v : value) : M bool := p ← as_path v; os_path_exists p.
Definition remove (v : value) : M unit := p ← as_path v; os_remove p.

(** ** bart_model.py and w2v_bart.py

    The two files are the same text but for the speech model: w2v_bart
    resamples the upload (line 60) and calls [asr_pipeline] on the path
    (line 113) where bart_model calls whisper (lines 113-114). *)

Inductive Variant := BartModel | W2vBart.

(** w2v_bart.py line 60 *)
Definition resample (v : Variant) (audio_segment : AudioSegment) : M AudioSegment :=
  match v with
  | BartModel => mret audio_segment
  | W2vBart =>
      a ← set_frame_rate 16000 audio_segment;
      set_channels 1 a
  end.

(** bart_model.py lines 113-115, w2v_bart.py lines 113-114 *)
Definition transcribe (v : Variant) (temp_path : string) : M pystr :=
  match v with
  | BartModel =>
      audio_np ← whisper_load_audio temp_path;
      whisper_transcribe audio_np
  | W2vBart => asr_pipeline temp_path
  end.

(** [finally: if os.path.exists(temp_path): os.remove(temp_path)] *)
Definition remove_temp_path : M unit :=
  temp_path ← get_var "temp_path";
  found ← path_exists temp_path;
  when found (remove temp_path).

(** Lines 52-70: [if uploaded_file: ...] *)
Definition upload (v : Variant) (uploaded_file : option UploadedFile) : M unit :=
  match uploaded_file with
  | None => mret tt
  | Some uf =>
      st (st_audio (uf_data uf) (uf_type uf));;
      try_except_finally
        (temp_upload_file ← NamedTemporaryFile (splitext_ext (uf_name uf));
         file_write temp_upload_file (uf_data uf);;
         set_var "temp_path" (PyPath temp_upload_file);;
         audio_segment ← AudioSegment_from_file temp_upload_file;
         audio_segment ← resample v audio_segment;
         temp_wav ← export audio_segment (BytesIO_new []) "wav";
         session_set "audio_data_for_processing"
           (PyBytesIO (BytesIO_seek 0 temp_wav));;
         st (st_success (lit "Uploaded audio length: "
                         ++ ext_duration_2f ext audio_segment ++ lit " sec")))
        (λ e, st (st_error (lit "Error processing uploaded file: " ++ exn_str e)))
        remove_temp_path
  end.

(** Lines 73-95: the microphone *)
Definition record (recorded : MicOutput) : M unit :=
  st (st_info (lit "Click the mic to start/stop recording. Auto stops after 30s."));;
  match recorded with
  | MicDict (Some audio_bytes) =>
      st (st_audio audio_bytes "audio/wav");;
      session_set "audio_data_for_processing"
        (PyBytesIO (BytesIO_seek 0
           (BytesIO_set_name "recorded_audio.wav" (BytesIO_new audio_bytes))));;
      st (st_success (lit "Audio recorded successfully!"))
  | MicNone => st (st_info (lit "No audio recorded yet."))
  | MicDict None => st (st_warning (lit "Recording failed or was empty."))
  end.

(** Lines 124-137: [if transcript: ...] *)
Definition summarize (transcript : value) : M unit :=
  when (truthy transcript)
    (try_except
       (text ← match transcript with
               | PyStr t => mret t
               | _ => raise (Exception (lit "TypeError"))
               end;
        summary ← summarizer_pipeline text 150 40 false;
        session_set "summary" (PyStr summary);;
        st (st_success (lit "Summary Complete!")))
       (λ e, st (st_error (lit "Summarization failed: " ++ exn_str e)))).

(** Lines 100-139: [if st.button("Process Audio"): ...] *)
Definition process (v : Variant) (clicked : bool) : M unit :=
  when clicked
    (audio_data_for_processing ← session_get "audio_data_for_processing";
     set_var "transcript" PyNone;;
     if truthy audio_data_for_processing then
       st (st_subheader (lit "Processing Results:"));;
       try_except_finally
         (buffer_seek "audio_data_for_processing" 0;;
          temp_file ← NamedTemporaryFile ".wav";
          data ← buffer_read "audio_data_for_processing";
          file_write temp_file data;;
          set_var "temp_path" (PyPath temp_file);;
          text ← transcribe v temp_file;
          set_var "transcript" (PyStr text);;
          session_set "transcript" (PyStr text);;
          st (st_success (lit "Transcription Complete!")))
         (λ e, st (st_error (lit "Transcription failed: " ++ exn_str e)))
         remove_temp_path;;
       transcript ← get_var "transcript";
       summarize transcript
     else
       st (st_warning (lit "Please upload or record audio before processing."))).

(** Lines 142-160: the stored results and their downloads.  The labels
    start with U+1F4DD, U+1F4E5 and U+1F4C4. *)
Definition show_stored_results : M unit :=
  s ← get_session;
  match s !! "transcript" with
  | Some transcript =>
      st (st_subheader (128221%N :: lit " Transcript:"));;
      st (st_code transcript);;
      st (st_download_button (128229%N :: lit " Download Transcript")
            transcript "transcript.txt" "text/plain")
  | None => mret tt
  end;;
  s ← get_session;
  match s !! "summary" with
  | Some summary =>
      st (st_subheader (128196%N :: lit " Summary:"));;
      st (st_write summary);;
      st (st_download_button (128229%N :: lit " Download Summary")
            summary "summary.txt" "text/plain")
  | None => mret tt
  end.

(** bart_model.py line 163, w2v_bart.py line 162: the text of the
    [st.info] that ends the page (U+2764 U+FE0F is the heart). *)
Definition footer (v : Variant) : pystr :=
  match v with
  | BartModel =>
      lit "Built with " ++ [10084%N; 65039%N]
      ++ lit " using Whisper, Hugging Face Transformers, Streamlit, and PyDub."
  | W2vBart => lit "Built using Hugging Face Transformers, Streamlit, and PyDub."
  end.

(** One run of the page. *)
Definition script (v : Variant) (wd : Widgets) : M unit :=
  session_default "audio_data_for_processing";;
  match audio_source_option wd with
  | UploadAudioFile => upload v (uploaded_file wd)
  | RecordLiveAudio => record (recorded wd)
  end;;
  process v (process_button wd);;
  show_stored_results;;
  st (st_info (footer v)).

End Scripts.

(** ** whisp_t5.py *)

(** *** The PDF document of fpdf

    The document is the sequence of layout calls made on it.  The script
    imports [FPDF] from [fpdf] and pins no release; the releases differ in
    what a code point outside latin-1 does with a built-in font:
    - early fpdf2: [multi_cell] raises [UnicodeEncodeError], as lines
      129-136 of the script expect;
    - fpdf2 today: [multi_cell] raises [FPDFUnicodeEncodingException], an
      [Exception] that is not a [UnicodeEncodeError];
    - PyFPDF 1.7.2: [multi_cell] takes any text, and [output] raises
      [UnicodeEncodeError] when it encodes the pages. *)
Inductive PdfOp :=
| AddPage
| SetFont (family : string) (size : Z)
| MultiCell (w h : Z) (txt : pystr)
| Ln (h : Z).

Inductive Fpdf := Fpdf2Early | Fpdf2 | PyFPDF.

Definition latin1 (c : N) : bool := (c <=? 255)%N.

Definition multi_cell (lib : Fpdf) (w h : Z) (txt : pystr) (pdf : list PdfOp)
  : M (list PdfOp) :=
  match lib with
  | Fpdf2Early =>
      if forallb latin1 txt then mret (pdf ++ [MultiCell w h txt])
      else raise (UnicodeEncodeError (lit "'latin-1' codec can't encode character"))
  | Fpdf2 =>
      if forallb latin1 txt then mret (pdf ++ [MultiCell w h txt])
      else raise (Exception (lit "FPDFUnicodeEncodingException: character outside the range of characters supported by the font"))
  | PyFPDF => mret (pdf ++ [MultiCell w h txt])
  end.

(** Every text of the document is within latin-1. *)
Definition encodable (pdf : list PdfOp) : bool :=
  forallb (λ op, match op with
                 | MultiCell _ _ txt => forallb latin1 txt
                 | _ => true
                 end) pdf.

(** [pdf.output(dest='S')]: the document serialised. *)
Definition pdf_output (lib : Fpdf) (pdf : list PdfOp) : M (list PdfOp) :=
  match lib with
  | PyFPDF =>
      if encodable pdf then mret pdf
      else raise (UnicodeEncodeError (lit "'latin-1' codec can't encode character"))
  | _ => mret pdf
  end.

(** [txt.encode('latin-1', 'replace').decode('latin-1')]: a question mark
    for every code point latin-1 lacks. *)
Definition encode_replace_decode (txt : pystr) : pystr :=
  map (λ c, if latin1 c then c else 63%N) txt.

(** [try: body / except UnicodeEncodeError: handler] *)
Definition try_except_UnicodeEncodeError {A} (body handler : M A) : M A :=
  λ w, match body w with
       | (Raise (UnicodeEncodeError _), w') => handler w'
       | r => r
       end.

(** Lines 120-152.  The result is the document that [pdf.output] serialises. *)
Definition generate_pdf (lib : Fpdf) (transcript : pystr) (summary : option pystr)
  : M (list PdfOp) :=
  let pdf := [AddPage; SetFont "Arial" 12] in
  pdf ← multi_cell lib 0 10 (lit "--- Transcript ---") pdf;
  let pdf := pdf ++ [Ln 5] in
  pdf ← try_except_UnicodeEncodeError
          (multi_cell lib 0 10 transcript pdf)
          (st (st_warning (lit "Some characters in the transcript could not be rendered in the PDF (due to font limitations). They have been replaced."));;
           multi_cell lib 0 10 (encode_replace_decode transcript) pdf);
  let pdf := pdf ++ [Ln 10] in
  pdf ← match summary with
        | Some (c :: r) =>
            let summary := c :: r in
            pdf ← multi_cell lib 0 10 (lit "--- Summary ---") pdf;
            let pdf := pdf ++ [Ln 5] in
            try_except_UnicodeEncodeError
              (multi_cell lib 0 10 summary pdf)
              (st (st_warning (lit "Some characters in the summary could not be rendered in the PDF (due to font limitations). They have been replaced."));;
               multi_cell lib 0 10 (encode_replace_decode summary) pdf)
        | _ => mret pdf
        end;
  pdf_output lib pdf.

Section WhispT5.

Context (ext : Externals).

(** [finally: if name and os.path.exists(name): os.remove(name)].  The
    empty string is false in Python, so an empty path would be skipped;
    tempfile never returns one. *)
Definition remove_if_set (name : string) : M unit :=
  path ← get_var name;
  if truthy path then
    found ← path_exists path;
    when found (remove path)
  else mret tt.

(** Lines 69-89 *)
Definition whisp_upload (uploaded_file : option UploadedFile) : M unit :=
  match uploaded_file with
  | None => mret tt
  | Some uf =>
      st (st_audio (uf_data uf) (uf_type uf));;
      set_var "temp_path" PyNone;;
      try_except_finally
        (temp_upload_file ← NamedTemporaryFile ext (splitext_ext (uf_name uf));
         file_write ext temp_upload_file (uf_data uf);;
         set_var "temp_path" (PyPath temp_upload_file);;
         audio_segment ← AudioSegment_from_file ext temp_upload_file;
         temp_wav ← export ext audio_segment (BytesIO_new []) "wav";
         session_set "audio_data_for_processing"
           (PyBytesIO (BytesIO_seek 0 temp_wav));;
         st (st_info (lit "Uploaded audio length: "
                      ++ ext_duration_2f ext audio_segment ++ lit " sec")))
        (λ e,
           st (st_error (lit "Error processing uploaded file: " ++ exn_str e
                 ++ lit ". Please ensure FFmpeg is installed and the file is not corrupted."));;
           session_set "audio_data_for_processing" PyNone)
        (remove_if_set "temp_path")
  end.

(** Lines 92-115 *)
Definition whisp_record (recorded : MicOutput) : M unit :=
  st (st_info (lit "Click the mic to start/stop recording. Auto stops after 30s."));;
  match recorded with
  | MicDict (Some audio_bytes) =>
      st (st_audio audio_bytes "audio/wav");;
      session_set "audio_data_for_processing"
        (PyBytesIO (BytesIO_seek 0
           (BytesIO_set_name "recorded_audio.wav" (BytesIO_new audio_bytes))));;
      st (st_success (lit "Audio recorded successfully!"))
  | MicNone => st (st_info (lit "No audio recorded yet."))
  | MicDict None =>
      st (st_warning (lit "Recording failed or was empty."));;
      session_set "audio_data_for_processing" PyNone
  end.

(** Lines 194-220 *)
Definition whisp_summarize : M unit :=
  transcript_text ← session_get "transcript_text";
  if truthy transcript_text then
    try_except
      (text ← match transcript_text with
              | PyStr t => mret t
              | _ => raise (Exception (lit "TypeError"))
              end;
       summary ← summarizer_pipeline ext text 150 40 false;
       session_set "summary_text" (PyStr summary);;
       st (st_success (lit "Summary Complete!"));;
       st (st_subheader (128196%N :: lit " Summary:"));;
       st (st_write (PyStr summary));;
       summary_text ← session_get "summary_text";
       st (st_download_button (128229%N :: lit " Download Summary")
             summary_text "summary.txt" "text/plain"))
      (λ e, st (st_error (lit "Summarization failed: " ++ exn_str e
                  ++ lit ". Try adjusting length parameters or using a shorter transcript.")))
  else
    st (st_warning (lit "Skipping summarization as no transcript was generated.")).

(** Lines 155-223 *)
Definition whisp_process (clicked : bool) : M unit :=
  when clicked
    (session_set "transcript_text" PyNone;;
     session_set "summary_text" PyNone;;
     audio_data_for_processing ← session_get "audio_data_for_processing";
     if truthy audio_data_for_processing then
       st (st_subheader (lit "Processing Results:"));;
       set_var "current_wav_temp_path" PyNone;;
       try_except_finally
         (buffer_seek "audio_data_for_processing" 0;;
          temp_file ← NamedTemporaryFile ext ".wav";
          data ← buffer_read "audio_data_for_processing";
          file_write ext temp_file data;;
          set_var "current_wav_temp_path" (PyPath temp_file);;
          audio_np ← whisper_load_audio ext temp_file;
          transcript ← whisper_transcribe ext audio_np;
          session_set "transcript_text" (PyStr transcript);;
          st (st_success (lit "Transcription Complete!"));;
          st (st_subheader (128221%N :: lit " Transcript:"));;
          st (st_code (PyStr transcript));;
          transcript_text ← session_get "transcript_text";
          st (st_download_button (128229%N :: lit " Download Transcript")
                transcript_text "transcript.txt" "text/plain"))
         (λ e, st (st_error (lit "Transcription failed: " ++ exn_str e
                     ++ lit ". Please check the audio file and ensure Whisper model loaded correctly.")))
         (remove_if_set "current_wav_temp_path");;
       whisp_summarize
     else
       st (st_warning (lit "Please upload or record audio before processing."))).

(** One run of the page.  [generate_pdf] is defined by the script and
    called nowhere in it. *)
Definition whisp_t5 (wd : Widgets) : M unit :=
  session_default "audio_data_for_processing";;
  session_default "transcript_text";;
  session_default "summary_text";;
  match audio_source_option wd with
  | UploadAudioFile => whisp_upload (uploaded_file wd)
  | RecordLiveAudio => whisp_record (recorded wd)
  end;;
  whisp_process (process_button wd).

End WhispT5.

(** ** Runs and sessions

    The file system and the session survive a run; the script's variables,
    the page and the log start empty in every run. *)
Definition start (fs0 : gmap string (list byte)) (s0 : gmap string value) : World :=
  mkWorld fs0 s0 ∅ [] [].

Definition rerun (page_script : M unit) (w : World) : res unit * World :=
  page_script (start (fs w) (session_state w)).

(** The world after a sequence of runs; a run that ends in an uncaught
    exception leaves what it had done by then. *)
Fixpoint session (runs : list (M unit)) (w : World) : World :=
  match runs with
  | [] => w
  | r :: rest => session rest (rerun r w).2
  end.

Definition new_session : World := start ∅ ∅.

(** ** Collaborators with fixed outcomes

    For the concrete scenarios: every call returns the outcome given here,
    whatever its arguments; a temporary file gets the name given here with
    the suffix asked for.  pydub's conversions keep the bytes and [export]
    writes them out. *)
Definition fixed (tmp : exn + string) (written : option exn)
    (decoded : exn + AudioSegment) (text : exn + pystr) (summary : exn + pystr)
  : Externals :=
  mkExternals
    (λ _ suffix, match tmp with
                 | inl e => inl e
                 | inr name => inr (String.append name suffix)
                 end)
    (λ _ _, written) (λ _ _, decoded)
    (λ seg _, raw_data seg) (λ seg _, raw_data seg) (λ seg _, inr (raw_data seg))
    (λ _, lit "0.00") (λ _ _, inr []) (λ _, text) (λ _ _, text)
    (λ _ _ _ _, summary).

(** ** Outcomes of a run *)

(** The outcome and the world of a run satisfy [Q]. *)
Definition wp {A} (m : M A) (w : World) (Q : res A → World → Prop) : Prop :=
  Q (m w).1 (m w).2.

(** ** Transcription and the pipeline of a click *)

(** What the transcription adapter returns for a staged path, and the
    calls it logs: whisper in bart_model, the pipeline in w2v_bart. *)
Definition transcription (ext : Externals) (v : Variant)
    (f : gmap string (list byte)) (p : string) : exn + pystr :=
  match v with
  | BartModel =>
      match ext_load_audio ext f p with
      | inl e => inl e
      | inr audio_np => ext_transcribe ext audio_np
      end
  | W2vBart => ext_asr_pipeline ext f p
  end.

Definition transcription_log (ext : Externals) (v : Variant)
    (f : gmap string (list byte)) (p : string) : list Event :=
  match v with
  | BartModel =>
      EvLoadAudio p ::
      match ext_load_audio ext f p with
      | inl e => []
      | inr audio_np => [EvTranscribe audio_np]
      end
  | W2vBart => [EvAsrPipeline p]
  end.

(** The file system once [data] is staged at [p]. *)
Definition staged (f : gmap string (list byte)) (p : string) (data : list byte)
  : gmap string (list byte) :=
  <[p := data]> (<[p := []]> f).



(** ** Session data *)

(** Stored values that hold the same data.  Reading the shared buffer
    moves its cursor, so buffers are compared by their bytes and name. *)
Definition same_value (x y : value) : Prop :=
  match x, y with
  | PyBytesIO a, PyBytesIO b => getvalue a = getvalue b ∧ bio_name a = bio_name b
  | _, _ => x = y
  end.

(** Session dictionaries with the same keys and the same data under them. *)
Definition same_data (s s' : gmap string value) : Prop :=
  ∀ k, match s !! k, s' !! k with
       | Some x, Some y => same_value x y
       | None, None => True
       | _, _ => False
       end.

(** The session with the two results of whisp_t5 reset, as its Process
    click does before anything else. *)
Definition cleared (s : gmap string value) : gmap string value :=
  <["summary_text" := PyNone]> (<["transcript_text" := PyNone]> s).

(** A stored result is populated when its key holds something other than
    [None]; it is non-empty when it holds a true value. *)
Definition populated (o : option value) : bool :=
  match o with
  | Some PyNone | None => false
  | Some _ => true
  end.

Definition nonempty (o : option value) : bool :=
  match o with
  | Some v => truthy v
  | None => false
  end.

(** The state invariant: a populated summary goes with a non-empty
    transcript. *)
Definition consistent (transcript_key summary_key : string)
    (s : gmap string value) : bool :=
  implb (populated (s !! summary_key)) (nonempty (s !! transcript_key)).

(** A key of the session is set. *)
Definition is_set (o : option value) : bool :=
  match o with
  | Some _ => true
  | None => false
  end.

(** The weaker form of the invariant, on keys: the summary key is set only
    when the transcript key is. *)
Definition keys_consistent (s : gmap string value) : bool :=
  implb (is_set (s !! "summary")) (is_set (s !! "transcript")).

(** In a log, every write of a summary value comes after a write of a
    non-empty transcript ([seen]: such a write has happened). *)
Fixpoint summary_follows_transcript (transcript_key summary_key : string)
    (seen : bool) (l : list Event) : bool :=
  match l with
  | [] => true
  | EvSessionSet k v :: r =>
      if String.eqb k transcript_key
      then summary_follows_transcript transcript_key summary_key (truthy v) r
      else if String.eqb k summary_key
      then (negb (populated (Some v)) || seen)
           && summary_follows_transcript transcript_key summary_key seen r
      else summary_follows_transcript transcript_key summary_key seen r
  | _ :: r => summary_follows_transcript transcript_key summary_key seen r
  end.

(** ** Normalization *)

(** The segment the upload of variant [v] exports, and the conversions it
    logs on the way. *)
Definition resampled (ext : Externals) (v : Variant) (seg : AudioSegment)
  : AudioSegment :=
  match v with
  | BartModel => seg
  | W2vBart => with_channels ext 1 (with_frame_rate ext 16000 seg)
  end.

Definition resample_log (v : Variant) : list Event :=
  match v with
  | BartModel => []
  | W2vBart => [EvSetFrameRate 16000; EvSetChannels 1]
  end.

(** Did the run decode the input and encode it again; did it resample to
    16000 Hz and one channel. *)
Definition normalizer_ran (l : list Event) : bool :=
  existsb (λ ev, match ev with EvFromFile _ => true | _ => false end) l
  && existsb (λ ev, match ev with EvExport _ => true | _ => false end) l.

Definition resampler_ran (l : list Event) : bool :=
  existsb (λ ev, match ev with EvSetFrameRate 16000 => true | _ => false end) l
  && existsb (λ ev, match ev with EvSetChannels 1 => true | _ => false end) l.

(** The buffer the record handler stores for a capture. *)
Definition recorded_buffer (audio_bytes : list byte) : BytesIO :=
  mkBytesIO audio_bytes 0 (Some "recorded_audio.wav").

(** ** Downloads and the PDF document *)

(** The downloads a page offers: file name, MIME type and payload. *)
Definition download_of (el : Element) : option (string * string * value) :=
  match el with
  | st_download_button _ data file_name mime => Some (file_name, mime, data)
  | _ => None
  end.

Definition downloads (els : list Element) : list (string * string * value) :=
  omap download_of els.

(** What [show_stored_results] offers for a stored key. *)
Definition stored_download (s : gmap string value) (key file_name : string)
  : list (string * string * value) :=
  match s !! key with
  | Some v => [(file_name, "text/plain", v)]
  | None => []
  end.

(** A download of one of the two text files. *)
Definition text_download (d : string * string * value) : bool :=
  String.eqb d.1.2 "text/plain"
  && (String.eqb d.1.1 "transcript.txt" || String.eqb d.1.1 "summary.txt").

(** The document [generate_pdf] lays out with the fpdf its comments
    expect: the transcript section always, the summary section for a
    non-empty summary, every code point outside latin-1 replaced. *)
Definition pdf_sections (transcript : pystr) (summary : option pystr)
  : list PdfOp :=
  [AddPage; SetFont "Arial" 12;
   MultiCell 0 10 (lit "--- Transcript ---"); Ln 5;
   MultiCell 0 10 (encode_replace_decode transcript); Ln 10]
  ++ match summary with
     | Some (c :: r) =>
         [MultiCell 0 10 (lit "--- Summary ---"); Ln 5;
          MultiCell 0 10 (encode_replace_decode (c :: r))]
     | _ => []
     end.

(** The warnings [generate_pdf] shows with that fpdf. *)
Definition pdf_warnings (transcript : pystr) (summary : option pystr)
  : list Element :=
  (if forallb latin1 transcript then []
   else [st_warning (lit "Some characters in the transcript could not be rendered in the PDF (due to font limitations). They have been replaced.")])
  ++ match summary with
     | Some (c :: r) =>
         if forallb latin1 (c :: r) then []
         else [st_warning (lit "Some characters in the summary could not be rendered in the PDF (due to font limitations). They have been replaced.")]
     | _ => []
     end.

(** The texts [generate_pdf] lays out are within latin-1: the transcript,
    and the summary when it is not empty. *)
Definition within_latin1 (transcript : pystr) (summary : option pystr) : bool :=
  forallb latin1 transcript
  && match summary with
     | Some (c :: r) => forallb latin1 (c :: r)
     | _ => true
     end.

(** The text of every cell of a document. *)
Definition cell_texts (pdf : list PdfOp) : list pystr :=
  omap (λ op, match op with MultiCell _ _ txt => Some txt | _ => None end) pdf.

(** ** What the parts of a run keep *)

(** What any part of a whisp_t5 run does to the world: it keeps the state
    invariant and adds text downloads only to the page. *)
Definition whisp_step (w w' : World) : Prop :=
  (consistent "transcript_text" "summary_text" (session_state w) = true →
   consistent "transcript_text" "summary_text" (session_state w') = true)
  ∧ ∃ ds, downloads (page w') = downloads (page w) ++ ds
          ∧ forallb text_download ds = true.

(** What any part of a bart_model or w2v_bart run keeps. *)
Definition bart_step (w w' : World) : Prop :=
  keys_consistent (session_state w) = true →
  keys_consistent (session_state w') = true.

(** The runs of a session, from the collaborators and widgets of each. *)
Definition whisp_runs (actions : list (Externals * Widgets)) : list (M unit) :=
  map (λ a, whisp_t5 a.1 a.2) actions.

Definition bart_runs (v : Variant) (actions : list (Externals * Widgets))
  : list (M unit) :=
  map (λ a, script a.1 v a.2) actions.

(** A part of a run keeps what is stored under [k], once [k] is set. *)
Definition keeps_key (k : string) (w w' : World) : Prop :=
  is_set (session_state w !! k) = true →
  session_state w' !! k = session_state w !! k.

(** ** Scenarios *)

Definition one_second : BytesIO := BytesIO_new [x52; x49; x46; x46].

Definition audio_ready : World :=
  start ∅ {[ "audio_data_for_processing" := PyBytesIO one_second ]}.

(** A whisp_t5 session that holds the results of an earlier click. *)
Definition whisp_with_results : World :=
  start ∅ {[ "audio_data_for_processing" := PyBytesIO one_second;
             "transcript_text" := PyStr (lit "old transcript");
             "summary_text" := PyStr (lit "old summary") ]}.

(** Widgets of the scenarios: a microphone capture, an uploaded file. *)
Definition capture : list byte := [x1a; x45; xdf; xa3].

Definition a_recording (click : bool) : Widgets :=
  mkWidgets RecordLiveAudio None (MicDict (Some capture)) click.

Definition an_upload (click : bool) : Widgets :=
  mkWidgets UploadAudioFile
    (Some (mkUploadedFile "talk.mp3" "audio/mpeg" [x49; x44; x33]))
    MicNone click.

(** Staging and both models succeed: "hello world", then "hi". *)
Definition hello_ext : Externals :=
  fixed (inr "/tmp/tmp1") None (inr (mkSegment 44100 2 [x00]))
    (inr (lit "hello world")) (inr (lit "hi")).

(** The speech model returns the empty text, as for silence. *)
Definition silence_ext : Externals :=
  fixed (inr "/tmp/tmp2") None (inr (mkSegment 44100 2 [x00]))
    (inr []) (inr (lit "hi")).

(** The speech model raises. *)
Definition failing_speech_ext : Externals :=
  fixed (inr "/tmp/tmp3") None (inr (mkSegment 44100 2 [x00]))
    (inl (Exception (lit "CUDA out of memory"))) (inr (lit "hi")).

(** The temporary file cannot be created. *)
Definition no_tempfile_ext : Externals :=
  fixed (inl (Exception (lit "[Errno 28] No space left on device"))) None
    (inr (mkSegment 44100 2 [x00])) (inr (lit "hello world")) (inr (lit "hi")).

(** The temporary file is created and the write into it fails. *)
Definition write_fails_ext : Externals :=
  fixed (inr "/tmp/tmp4")
    (Some (Exception (lit "[Errno 28] No space left on device")))
    (inr (mkSegment 44100 2 [x00])) (inr (lit "hello world")) (inr (lit "hi")).

(** The uploaded file cannot be decoded. *)
Definition corrupt_ext : Externals :=
  fixed (inr "/tmp/tmp5") None
    (inl (Exception (lit "Decoding failed. ffmpeg returned error code: 1")))
    (inr (lit "hello world")) (inr (lit "hi")).

(** The summarizer raises. *)
Definition failing_summary_ext : Externals :=
  fixed (inr "/tmp/tmp6") None (inr (mkSegment 44100 2 [x00]))
    (inr (lit "hello world")) (inl (Exception (lit "index out of range in self"))).

(** The uploaded file of the scenarios. *)
Definition talk_mp3 : UploadedFile :=
  mkUploadedFile "talk.mp3" "audio/mpeg" [x49; x44; x33].

(** A bart_model session with audio whose buffer an earlier click has read
    to the end, and the results of that click. *)
Definition read_to_end : BytesIO := mkBytesIO [x52; x49; x46; x46] 4 None.

Definition bart_with_results : World :=
  start ∅ {[ "audio_data_for_processing" := PyBytesIO read_to_end;
             "transcript" := PyStr (lit "old transcript");
             "summary" := PyStr (lit "old summary") ]}.

(** A session with no audio and the results of an earlier click. *)
Definition bart_without_audio : World :=
  start ∅ {[ "audio_data_for_processing" := PyNone;
             "transcript" := PyStr (lit "old transcript");
             "summary" := PyStr (lit "old summary") ]}.

(** * Properties *)

Arguments lit : simpl never.

(** ** Symbolic runs

    [wp m w Q]: the outcome and the world of running [m] from [w] satisfy
    [Q].  One rule per construct of the monad; [wp_run] follows the script
    along a path, splitting on the outcomes that are not known. *)

Lemma wp_bind {A B} (m : M A) (f : A → M B) w Q :
  wp m w (λ r w1, match r with
                  | Ok a => wp (f a) w1 Q
                  | Raise e => Q (Raise e) w1
                  end) →
  wp (m ≫= f) w Q.
Proof.
  unfold wp, mbind, M_bind. destruct (m w) as [[a|e] w1]; simpl; auto.
Qed.

Lemma wp_ret {A} (a : A) w Q : Q (Ok a) w → wp (mret a) w Q.
Proof. done. Qed.

Lemma wp_raise {A} e w (Q : res A → World → Prop) :
  Q (Raise e) w → wp (raise e) w Q.
Proof. done. Qed.

Lemma wp_lift_ext {A} (r : exn + A) w Q :
  match r with inl e => Q (Raise e) w | inr a => Q (Ok a) w end →
  wp (lift_ext r) w Q.
Proof. by destruct r. Qed.

Lemma wp_emit ev w Q :
  Q (Ok tt) (mkWorld (fs w) (session_state w) (vars w) (page w) (log w ++ [ev])) →
  wp (emit ev) w Q.
Proof. done. Qed.

Lemma wp_st el w Q :
  Q (Ok tt) (mkWorld (fs w) (session_state w) (vars w) (page w ++ [el]) (log w)) →
  wp (st el) w Q.
Proof. done. Qed.

Lemma wp_get_fs w Q : Q (Ok (fs w)) w → wp get_fs w Q.
Proof. done. Qed.

Lemma wp_put_fs f w Q :
  Q (Ok tt) (mkWorld f (session_state w) (vars w) (page w) (log w)) →
  wp (put_fs f) w Q.
Proof. done. Qed.

Lemma wp_get_session w Q : Q (Ok (session_state w)) w → wp get_session w Q.
Proof. done. Qed.

Lemma wp_put_session s w Q :
  Q (Ok tt) (mkWorld (fs w) s (vars w) (page w) (log w)) →
  wp (put_session s) w Q.
Proof. done. Qed.

Lemma wp_set_var name v w Q :
  Q (Ok tt) (mkWorld (fs w) (session_state w) (<[name := v]> (vars w))
               (page w) (log w)) →
  wp (set_var name v) w Q.
Proof. done. Qed.

Lemma wp_get_var name w Q :
  match vars w !! name with
  | Some v => Q (Ok v) w
  | None => Q (Raise (NameError name)) w
  end →
  wp (get_var name) w Q.
Proof. unfold wp, get_var. by destruct (vars w !! name). Qed.

Lemma wp_try_except body handler w Q :
  wp body w (λ r w1, match r with
                     | Ok a => Q (Ok a) w1
                     | Raise e => wp (handler e) w1 Q
                     end) →
  wp (try_except body handler) w Q.
Proof.
  unfold wp, try_except. destruct (body w) as [[a|e] w1]; simpl; auto.
Qed.

Lemma wp_try_finally body final w Q :
  wp body w (λ r w1,
    wp final w1 (λ r2 w2, match r2 with
                          | Ok _ => Q r w2
                          | Raise e => Q (Raise e) w2
                          end)) →
  wp (try_finally body final) w Q.
Proof.
  unfold wp, try_finally. destruct (body w) as [r w1]; simpl.
  destruct (final w1) as [[a|e] w2]; simpl; auto.
Qed.

Lemma wp_try_except_UnicodeEncodeError {A} (body handler : M A) w Q :
  wp body w (λ r w1, match r with
                     | Raise (UnicodeEncodeError _) => wp handler w1 Q
                     | _ => Q r w1
                     end) →
  wp (try_except_UnicodeEncodeError body handler) w Q.
Proof.
  unfold wp, try_except_UnicodeEncodeError.
  destruct (body w) as [[a|[]] w1]; simpl; auto.
Qed.

(** From [wp] back to the run. *)
Lemma wp_returns {A} (m : M A) w (P : A → World → Prop) :
  wp m w (λ r w', match r with Ok a => P a w' | Raise _ => False end) →
  ∃ a w', m w = (Ok a, w') ∧ P a w'.
Proof.
  unfold wp. destruct (m w) as [[a|e] w']; simpl; [eauto | done].
Qed.

Lemma wp_unit (m : M unit) w (P : World → Prop) :
  wp m w (λ r w', match r with Ok _ => P w' | Raise _ => False end) →
  ∃ w', m w = (Ok tt, w') ∧ P w'.
Proof.
  unfold wp. destruct (m w) as [[[]|e] w']; simpl; [eauto | done].
Qed.

(** Lookups in the dictionaries of the world. *)
Lemma lookup_set {A} (m : gmap string A) k v : <[k := v]> m !! k = Some v.
Proof. apply lookup_insert_eq. Qed.

Lemma lookup_set_ne {A} (m : gmap string A) k k' v :
  k ≠ k' → <[k := v]> m !! k' = m !! k'.
Proof. apply lookup_insert_ne. Qed.

Lemma lookup_del {A} (m : gmap string A) k : delete k m !! k = None.
Proof. apply lookup_delete_eq. Qed.

Lemma lookup_nil {A} k : (∅ : gmap string A) !! k = None.
Proof. apply lookup_empty. Qed.

Ltac head_of t :=
  lazymatch t with
  | ?f _ => head_of f
  | _ => t
  end.

(** The equations worth rewriting with: lookups and outcomes of calls. *)
Ltac rewritable l :=
  lazymatch l with
  | _ !! _ => idtac
  | _ =>
      let h := head_of l in
      lazymatch h with
      | ext_NamedTemporaryFile => idtac
      | ext_file_write => idtac
      | ext_from_file => idtac
      | ext_export => idtac
      | ext_load_audio => idtac
      | ext_transcribe => idtac
      | ext_asr_pipeline => idtac
      | ext_summarizer => idtac
      end
  end.

Ltac rew_hyps :=
  repeat match goal with
         | H : ?l = _ |- _ => rewritable l; progress (rewrite H)
         end.

Ltac wp_simpl :=
  cbn beta iota zeta delta [fs session_state vars page log fst snd].

Ltac wp_lookup :=
  repeat (progress (rewrite ?drop_0;
                    rew_hyps;
                    rewrite ?lookup_set, ?lookup_del, ?lookup_nil;
                    rewrite ?lookup_set_ne by done)).

(** Deciding the scrutinee [x] of a branch of the script: by an equation
    of the context, by a lookup, or else by cases on what it hangs on. *)
Ltac wp_rewrite x :=
  first
    [ match goal with H : x = _ |- _ => rewrite H end
    | lazymatch x with
      | match ?y with _ => _ end => wp_rewrite y
      end
    | progress (rewrite ?lookup_set, ?lookup_nil, ?lookup_del, ?drop_0;
                rewrite ?lookup_set_ne by done) ].

Ltac wp_destruct x :=
  lazymatch x with
  | match ?y with _ => _ end => wp_destruct y
  | truthy ?v => wp_destruct v
  | _ => destruct x eqn:?; try discriminate
  end.

Ltac wp_case x :=
  let x' := eval cbn in x in
  tryif constr_eq x x'
  then first [ wp_rewrite x | wp_destruct x ]
  else change x with x'.

Ltac wp_step :=
  lazymatch goal with
  | |- wp (mbind _ _) _ _ => apply wp_bind
  | |- wp (mret _) _ _ => apply wp_ret
  | |- wp (raise _) _ _ => apply wp_raise
  | |- wp (lift_ext ?r) _ _ => apply wp_lift_ext
  | |- wp (emit _) _ _ => apply wp_emit
  | |- wp (st _) _ _ => apply wp_st
  | |- wp get_fs _ _ => apply wp_get_fs
  | |- wp (put_fs _) _ _ => apply wp_put_fs
  | |- wp get_session _ _ => apply wp_get_session
  | |- wp (put_session _) _ _ => apply wp_put_session
  | |- wp (set_var _ _) _ _ => apply wp_set_var
  | |- wp (get_var _) _ _ => apply wp_get_var
  | |- wp (try_except _ _) _ _ => apply wp_try_except
  | |- wp (try_finally _ _) _ _ => apply wp_try_finally
  | |- wp (try_except_UnicodeEncodeError _ _) _ _ =>
      apply wp_try_except_UnicodeEncodeError
  | |- wp (match ?x with _ => _ end) _ _ => wp_case x
  | |- wp ?m _ _ => let h := head_of m in unfold h
  | |- match ?x with _ => _ end => wp_case x
  end;
  wp_simpl.

Ltac wp_run := repeat wp_step.

(** Tidying what a run leaves: buffer reads, lookups, the log as one list. *)
Ltac tidy :=
  cbn -[lit]; wp_lookup; rewrite <- ?app_assoc; cbn -[lit].

(** ** The pipeline of a Process click (bart_model, w2v_bart) *)




(** ** A failing transcription *)

Lemma same_value_refl x : same_value x x.
Proof. destruct x; simpl; auto. Qed.

Lemma same_data_refl s : same_data s s.
Proof. intros k. destruct (s !! k); [apply same_value_refl | exact I]. Qed.

(** Moving the cursor of the buffer under [key] keeps the data. *)
Lemma same_data_cursor s key b b' :
  s !! key = Some (PyBytesIO b) →
  getvalue b' = getvalue b → bio_name b' = bio_name b →
  same_data s (<[key := PyBytesIO b']> s).
Proof.
  intros Hk Hv Hn k. destruct (decide (key = k)) as [->|Hne].
  - rewrite lookup_insert_eq, Hk. simpl. auto.
  - rewrite lookup_insert_ne by done.
    destruct (s !! k); [apply same_value_refl | exact I].
Qed.

(** C4, as amended: when the transcription adapter raises, the error is
    shown once with the underlying message.  In bart_model and w2v_bart
    the stored session data is what it was before the click (only the read
    cursor of the audio buffer has moved).  In whisp_t5 the click has
    cleared both results first: transcript and summary are [None]
    afterwards, whatever they were, the rest of the session data is
    unchanged, and a warning that summarization is skipped follows the
    error. *)
Theorem transcription_failure_effects ext v w b p e e' :
  session_state w !! "audio_data_for_processing" = Some (PyBytesIO b) →
  ext_NamedTemporaryFile ext (fs w) ".wav" = inr p →
  ext_file_write ext p (getvalue b) = None →
  transcription ext v (staged (fs w) p (getvalue b)) p = inl e →
  transcription ext BartModel (staged (fs w) p (getvalue b)) p = inl e' →
  (∃ w', process ext v true w = (Ok tt, w')
         ∧ page w' = page w
             ++ [st_subheader (lit "Processing Results:");
                 st_error (lit "Transcription failed: " ++ exn_str e)]
         ∧ same_data (session_state w) (session_state w'))
  ∧ (∃ w', whisp_process ext true w = (Ok tt, w')
           ∧ page w' = page w
               ++ [st_subheader (lit "Processing Results:");
                   st_error (lit "Transcription failed: " ++ exn_str e'
                     ++ lit ". Please check the audio file and ensure Whisper model loaded correctly.");
                   st_warning (lit "Skipping summarization as no transcript was generated.")]
           ∧ session_state w' !! "transcript_text" = Some PyNone
           ∧ session_state w' !! "summary_text" = Some PyNone
           ∧ same_data (cleared (session_state w)) (session_state w')).
Proof.
  intros Ha Ht Hw Htr Htr'.
  unfold transcription, staged, cleared in *.
  split.
  - clear Htr'. apply wp_unit. destruct v.
    + destruct (ext_load_audio _ _ _) as [e0|a] eqn:Hl;
        [injection Htr as ->|]; wp_run; tidy;
        (split; [done|]); rewrite insert_insert_eq;
        by apply same_data_cursor with (b := b).
    + wp_run; tidy. split; [done|]. rewrite insert_insert_eq.
      by apply same_data_cursor with (b := b).
  - clear Htr. apply wp_unit.
    destruct (ext_load_audio _ _ _) as [e0|a] eqn:Hl;
      [injection Htr' as ->|]; wp_run; tidy;
      (repeat split; try done); rewrite insert_insert_eq;
      apply same_data_cursor with (b := b); tidy; done.
Qed.

Lemma transcription_failure_effects_witness :
  (∃ w', process failing_speech_ext BartModel true audio_ready = (Ok tt, w')
         ∧ page w' = page audio_ready
             ++ [st_subheader (lit "Processing Results:");
                 st_error (lit "Transcription failed: "
                           ++ exn_str (Exception (lit "CUDA out of memory")))]
         ∧ same_data (session_state audio_ready) (session_state w'))
  ∧ (∃ w', whisp_process failing_speech_ext true audio_ready = (Ok tt, w')
           ∧ page w' = page audio_ready
               ++ [st_subheader (lit "Processing Results:");
                   st_error (lit "Transcription failed: "
                     ++ exn_str (Exception (lit "CUDA out of memory"))
                     ++ lit ". Please check the audio file and ensure Whisper model loaded correctly.");
                   st_warning (lit "Skipping summarization as no transcript was generated.")]
           ∧ session_state w' !! "transcript_text" = Some PyNone
           ∧ session_state w' !! "summary_text" = Some PyNone
           ∧ same_data (cleared (session_state audio_ready)) (session_state w')).
Proof.
  apply (transcription_failure_effects failing_speech_ext BartModel audio_ready
           one_second "/tmp/tmp3.wav"); reflexivity.
Defined.

(** C4 as stated fails in whisp_t5: the failed click erases the transcript
    and the summary an earlier click had stored. *)
Lemma failed_click_erases_earlier_results :
  let w' := (whisp_process failing_speech_ext true whisp_with_results).2 in
  transcription failing_speech_ext BartModel
    (staged (fs whisp_with_results) "/tmp/tmp3.wav" (getvalue one_second))
    "/tmp/tmp3.wav" = inl (Exception (lit "CUDA out of memory"))
  ∧ session_state whisp_with_results !! "summary_text"
    = Some (PyStr (lit "old summary"))
  ∧ session_state w' !! "summary_text" = Some PyNone
  ∧ ¬ same_data (session_state whisp_with_results) (session_state w').
Proof.
  repeat split; try reflexivity.
  intros H. specialize (H "summary_text"). vm_compute in H. discriminate.
Qed.

(** ** Clearing on every Process click (whisp_t5) *)



(** ** Text export (bart_model, w2v_bart) *)

(** C9: the text downloads carry the stored transcript and summary
    themselves, as transcript.txt and summary.txt, and showing them leaves
    the session as it is; so showing them again from the same session
    offers the same payloads. *)
Theorem text_export_is_passthrough w :
  ∃ w', show_stored_results w = (Ok tt, w')
        ∧ session_state w' = session_state w
        ∧ downloads (page w')
          = downloads (page w)
            ++ stored_download (session_state w) "transcript" "transcript.txt"
            ++ stored_download (session_state w) "summary" "summary.txt"
        ∧ ∃ w'', show_stored_results (start (fs w') (session_state w')) = (Ok tt, w'')
                 ∧ downloads (page w'')
                   = stored_download (session_state w) "transcript" "transcript.txt"
                     ++ stored_download (session_state w) "summary" "summary.txt".
Proof.
  unfold stored_download, downloads.
  apply wp_unit.
  wp_run; tidy; (split; [done|]);
    rewrite ?omap_app; (split; [by rewrite ?app_nil_r|]);
    apply wp_unit; wp_run; tidy; done.
Qed.

(** The payload of transcript.txt is the stored transcript, unchanged. *)
Lemma text_export_is_passthrough_witness :
  let w := start ∅ {[ "transcript" := PyStr (lit "hello world");
                      "summary" := PyStr (lit "hi") ]} in
  downloads (page (show_stored_results w).2)
  = [("transcript.txt", "text/plain", PyStr (lit "hello world"));
     ("summary.txt", "text/plain", PyStr (lit "hi"))].
Proof.
  intros w.
  destruct (text_export_is_passthrough w) as (w' & Hrun & _ & Hd & _).
  rewrite Hrun. simpl. rewrite Hd. reflexivity.
Defined.

(** ** PDF export (whisp_t5) *)

Lemma encode_replace_decode_latin1 txt :
  forallb latin1 (encode_replace_decode txt) = true.
Proof.
  induction txt as [|c txt IH]; [done|]. simpl.
  rewrite IH, andb_true_r. by destruct (latin1 c) eqn:Hc.
Qed.

Lemma encode_replace_decode_id txt :
  forallb latin1 txt = true → encode_replace_decode txt = txt.
Proof.
  induction txt as [|c txt IH]; [done|]. simpl.
  intros [Hc Ht]%andb_true_iff. by rewrite Hc, IH.
Qed.

Lemma encode_replace_decode_lookup txt i c :
  txt !! i = Some c →
  encode_replace_decode txt !! i = Some (if latin1 c then c else 63%N).
Proof.
  intros H. unfold encode_replace_decode. by rewrite list_lookup_fmap, H.
Qed.

Lemma run_bind {A B} (m : M A) (f : A → M B) w :
  (m ≫= f) w = match m w with
               | (Ok a, w') => f a w'
               | (Raise e, w') => (Raise e, w')
               end.
Proof. reflexivity. Qed.

(** [multi_cell] on a text within latin-1, with any fpdf. *)
Lemma multi_cell_latin1 lib txt pdf w :
  forallb latin1 txt = true →
  multi_cell lib 0 10 txt pdf w = (Ok (pdf ++ [MultiCell 0 10 txt]), w).
Proof. intros H. unfold multi_cell. destruct lib; by rewrite ?H. Qed.

(** What one guarded [multi_cell] of [generate_pdf] does with the fpdf the
    script expects. *)
Lemma guarded_multi_cell txt warning pdf w :
  try_except_UnicodeEncodeError
    (multi_cell Fpdf2Early 0 10 txt pdf)
    (st (st_warning warning);;
     multi_cell Fpdf2Early 0 10 (encode_replace_decode txt) pdf) w
  = (Ok (pdf ++ [MultiCell 0 10 (encode_replace_decode txt)]),
     mkWorld (fs w) (session_state w) (vars w)
       (page w ++ (if forallb latin1 txt then [] else [st_warning warning]))
       (log w)).
Proof.
  unfold try_except_UnicodeEncodeError, multi_cell, mbind, M_bind, st.
  destruct (forallb latin1 txt) eqn:Ht; simpl.
  - rewrite encode_replace_decode_id by done. rewrite app_nil_r. by destruct w.
  - by rewrite encode_replace_decode_latin1.
Qed.

(** With any fpdf, a guarded [multi_cell] lays a text within latin-1 out
    as it is and shows nothing. *)
Lemma guarded_multi_cell_latin1 lib txt warning pdf w :
  forallb latin1 txt = true →
  try_except_UnicodeEncodeError
    (multi_cell lib 0 10 txt pdf)
    (st (st_warning warning);;
     multi_cell lib 0 10 (encode_replace_decode txt) pdf) w
  = (Ok (pdf ++ [MultiCell 0 10 txt]), w).
Proof.
  intros H. unfold try_except_UnicodeEncodeError.
  by rewrite multi_cell_latin1.
Qed.

(** With fpdf2 of today the exception of a guarded [multi_cell] is not the
    one the guard catches. *)
Lemma guarded_multi_cell_fpdf2 txt warning pdf w :
  forallb latin1 txt = false →
  try_except_UnicodeEncodeError
    (multi_cell Fpdf2 0 10 txt pdf)
    (st (st_warning warning);;
     multi_cell Fpdf2 0 10 (encode_replace_decode txt) pdf) w
  = (Raise (Exception (lit "FPDFUnicodeEncodingException: character outside the range of characters supported by the font")), w).
Proof.
  intros H. unfold try_except_UnicodeEncodeError, multi_cell. by rewrite H.
Qed.

(** With PyFPDF a guarded [multi_cell] never raises. *)
Lemma guarded_multi_cell_pyfpdf txt warning pdf w :
  try_except_UnicodeEncodeError
    (multi_cell PyFPDF 0 10 txt pdf)
    (st (st_warning warning);;
     multi_cell PyFPDF 0 10 (encode_replace_decode txt) pdf) w
  = (Ok (pdf ++ [MultiCell 0 10 txt]), w).
Proof. reflexivity. Qed.

Lemma header_latin1 :
  forallb latin1 (lit "--- Transcript ---") = true
  ∧ forallb latin1 (lit "--- Summary ---") = true.
Proof. split; reflexivity. Qed.

(** With the fpdf the script expects (early fpdf2), [generate_pdf] never
    raises.  It returns the document with the transcript section always and
    the summary section exactly for a non-empty summary; every code point
    the latin-1 font lacks is replaced by a question mark, so every cell of
    the document is representable; and a text that had such a code point
    brings its warning on the page. *)
Lemma generate_pdf_replaces_and_warns transcript summary w :
  generate_pdf Fpdf2Early transcript summary w
  = (Ok (pdf_sections transcript summary),
     mkWorld (fs w) (session_state w) (vars w)
       (page w ++ pdf_warnings transcript summary) (log w))
  ∧ Forall (λ txt, forallb latin1 txt = true)
      (cell_texts (pdf_sections transcript summary))
  ∧ ∀ i c, transcript !! i = Some c →
           encode_replace_decode transcript !! i
           = Some (if latin1 c then c else 63%N).
Proof.
  split; [|split].
  - unfold generate_pdf, pdf_sections, pdf_warnings.
    rewrite run_bind, multi_cell_latin1 by apply header_latin1.
    cbv beta iota zeta. rewrite run_bind, guarded_multi_cell.
    cbv beta iota. rewrite run_bind.
    destruct summary as [[|c r]|]; cbv beta iota zeta.
    + unfold mret, M_ret, pdf_output. simpl. by rewrite app_nil_r.
    + rewrite run_bind, multi_cell_latin1 by apply header_latin1.
      cbv beta iota. rewrite guarded_multi_cell.
      unfold pdf_output, mret, M_ret. simpl.
      by rewrite <- !app_assoc.
    + unfold mret, M_ret, pdf_output. simpl. by rewrite app_nil_r.
  - unfold pdf_sections, cell_texts.
    destruct summary as [[|c r]|]; simpl;
      repeat (first [ apply Forall_nil_2
                    | apply Forall_cons_2;
                      [first [ reflexivity
                             | apply encode_replace_decode_latin1
                             | apply (encode_replace_decode_latin1 (c :: r)) ]|] ]).
  - apply encode_replace_decode_lookup.
Qed.

(** A transcript with U+2019 and U+1F600 in it, with early fpdf2: the
    export succeeds, both are replaced and the transcript warning is
    shown. *)
Lemma generate_pdf_replaces_and_warns_witness :
  let transcript := lit "it" ++ [8217%N] ++ lit "s " ++ [128512%N] in
  ∃ w', generate_pdf Fpdf2Early transcript None new_session
        = (Ok [AddPage; SetFont "Arial" 12;
               MultiCell 0 10 (lit "--- Transcript ---"); Ln 5;
               MultiCell 0 10 (lit "it?s ?"); Ln 10], w')
        ∧ page w' = [st_warning (lit "Some characters in the transcript could not be rendered in the PDF (due to font limitations). They have been replaced.")].
Proof.
  intros transcript.
  destruct (generate_pdf_replaces_and_warns transcript None new_session)
    as [Hrun _].
  eexists. split; [exact Hrun | reflexivity].
Defined.

(** With PyFPDF no [multi_cell] raises: [generate_pdf] lays the texts out
    as they came and hands the document to [pdf.output]. *)
Lemma generate_pdf_pyfpdf transcript summary w :
  generate_pdf PyFPDF transcript summary w
  = pdf_output PyFPDF
      ([AddPage; SetFont "Arial" 12;
        MultiCell 0 10 (lit "--- Transcript ---"); Ln 5;
        MultiCell 0 10 transcript; Ln 10]
       ++ match summary with
          | Some (c :: r) =>
              [MultiCell 0 10 (lit "--- Summary ---"); Ln 5;
               MultiCell 0 10 (c :: r)]
          | _ => []
          end) w.
Proof. by destruct summary as [[|c r]|]. Qed.

Lemma encodable_as_laid_out transcript summary :
  encodable
    ([AddPage; SetFont "Arial" 12;
      MultiCell 0 10 (lit "--- Transcript ---"); Ln 5;
      MultiCell 0 10 transcript; Ln 10]
     ++ match summary with
        | Some (c :: r) =>
            [MultiCell 0 10 (lit "--- Summary ---"); Ln 5;
             MultiCell 0 10 (c :: r)]
        | _ => []
        end)
  = within_latin1 transcript summary.
Proof.
  unfold encodable, within_latin1.
  rewrite forallb_app. cbn [forallb].
  rewrite (proj1 header_latin1). cbn [andb].
  destruct summary as [[|c r]|]; cbn [forallb];
    rewrite ?(proj2 header_latin1); cbn [andb]; by rewrite ?andb_true_r.
Qed.

(** C7 fails on the code with the fpdf of today and with PyFPDF: for a
    transcript or a non-empty summary with a code point outside latin-1,
    [generate_pdf] ends in an exception and shows no warning.  With fpdf2
    the [multi_cell] of that text raises [FPDFUnicodeEncodingException],
    which [except UnicodeEncodeError] does not catch; with PyFPDF no
    [multi_cell] raises and [pdf.output], outside both [try] blocks,
    raises [UnicodeEncodeError]. *)
Theorem generate_pdf_raises_outside_latin1 transcript summary w :
  within_latin1 transcript summary = false →
  generate_pdf Fpdf2 transcript summary w
  = (Raise (Exception (lit "FPDFUnicodeEncodingException: character outside the range of characters supported by the font")), w)
  ∧ generate_pdf PyFPDF transcript summary w
    = (Raise (UnicodeEncodeError (lit "'latin-1' codec can't encode character")), w).
Proof.
  intros H. split.
  - unfold within_latin1 in H. unfold generate_pdf.
    rewrite run_bind, multi_cell_latin1 by apply header_latin1.
    cbv beta iota zeta. rewrite run_bind.
    destruct (forallb latin1 transcript) eqn:Ht.
    + rewrite guarded_multi_cell_latin1 by done.
      cbv beta iota. rewrite run_bind.
      destruct summary as [[|c r]|]; try done.
      cbv beta iota zeta.
      rewrite run_bind, multi_cell_latin1 by apply header_latin1.
      cbv beta iota. by rewrite guarded_multi_cell_fpdf2.
    + by rewrite guarded_multi_cell_fpdf2.
  - rewrite generate_pdf_pyfpdf. unfold pdf_output.
    by rewrite encodable_as_laid_out, H.
Qed.

(** "it's" with U+2019 for the apostrophe. *)
Lemma generate_pdf_raises_outside_latin1_witness :
  let transcript := lit "it" ++ [8217%N] ++ lit "s" in
  generate_pdf Fpdf2 transcript (Some (lit "hi")) new_session
  = (Raise (Exception (lit "FPDFUnicodeEncodingException: character outside the range of characters supported by the font")), new_session)
  ∧ generate_pdf PyFPDF transcript (Some (lit "hi")) new_session
    = (Raise (UnicodeEncodeError (lit "'latin-1' codec can't encode character")), new_session).
Proof.
  intros transcript.
  apply (generate_pdf_raises_outside_latin1 transcript (Some (lit "hi"))
           new_session).
  reflexivity.
Defined.

(** ** Normalization of the input (bart_model, w2v_bart) *)

Lemma resampled_w2v ext seg :
  frame_rate (resampled ext W2vBart seg) = 16000%Z
  ∧ channels (resampled ext W2vBart seg) = 1%Z.
Proof.
  unfold resampled, with_channels, with_frame_rate.
  destruct (Z.eqb_spec (frame_rate seg) 16000) as [Hr|Hr]; simpl;
    destruct (Z.eqb_spec (channels seg) 1) as [Hc|Hc]; simpl; done.
Qed.

(** Writing into a new buffer and rewinding: the buffer of the bytes. *)
Lemma write_new_buffer data :
  BytesIO_seek 0 (BytesIO_write data (BytesIO_new [])) = BytesIO_new data.
Proof.
  unfold BytesIO_seek, BytesIO_write, BytesIO_new. simpl.
  by rewrite drop_nil, app_nil_r.
Qed.

(** C6, as amended: in all three scripts an uploaded file is decoded and
    encoded again as WAV before it is stored in the session, in w2v_bart
    after resampling to 16000 Hz and downmixing to one channel; in all
    three scripts a microphone capture is stored as the bytes the recorder
    returned, with no decoding, encoding or resampling ([record] is the
    handler of bart_model and of w2v_bart, [whisp_record] that of
    whisp_t5). *)
Theorem upload_is_normalized_recording_is_not ext w :
  (∀ v uf p seg wav,
     ext_NamedTemporaryFile ext (fs w) (splitext_ext (uf_name uf)) = inr p →
     ext_file_write ext p (uf_data uf) = None →
     ext_from_file ext (staged (fs w) p (uf_data uf)) p = inr seg →
     ext_export ext (resampled ext v seg) "wav" = inr wav →
     ∃ w', upload ext v (Some uf) w = (Ok tt, w')
           ∧ log w' = log w
               ++ [EvNamedTemporaryFile (splitext_ext (uf_name uf));
                   EvFileWrite p (uf_data uf); EvFromFile p]
               ++ resample_log v
               ++ [EvExport "wav";
                   EvSessionSet "audio_data_for_processing"
                     (PyBytesIO (BytesIO_new wav));
                   EvRemove p]
           ∧ session_state w' !! "audio_data_for_processing"
             = Some (PyBytesIO (BytesIO_new wav)))
  ∧ (∀ uf p seg wav,
       p ≠ "" →
       ext_NamedTemporaryFile ext (fs w) (splitext_ext (uf_name uf)) = inr p →
       ext_file_write ext p (uf_data uf) = None →
       ext_from_file ext (staged (fs w) p (uf_data uf)) p = inr seg →
       ext_export ext seg "wav" = inr wav →
       ∃ w', whisp_upload ext (Some uf) w = (Ok tt, w')
             ∧ log w' = log w
                 ++ [EvNamedTemporaryFile (splitext_ext (uf_name uf));
                     EvFileWrite p (uf_data uf); EvFromFile p;
                     EvExport "wav";
                     EvSessionSet "audio_data_for_processing"
                       (PyBytesIO (BytesIO_new wav));
                     EvRemove p]
             ∧ session_state w' !! "audio_data_for_processing"
               = Some (PyBytesIO (BytesIO_new wav)))
  ∧ (∀ seg, frame_rate (resampled ext W2vBart seg) = 16000%Z
            ∧ channels (resampled ext W2vBart seg) = 1%Z)
  ∧ (∀ audio_bytes,
       ∃ w', record (MicDict (Some audio_bytes)) w = (Ok tt, w')
             ∧ log w' = log w
                 ++ [EvSessionSet "audio_data_for_processing"
                       (PyBytesIO (recorded_buffer audio_bytes))]
             ∧ session_state w' !! "audio_data_for_processing"
               = Some (PyBytesIO (recorded_buffer audio_bytes)))
  ∧ (∀ audio_bytes,
       ∃ w', whisp_record (MicDict (Some audio_bytes)) w = (Ok tt, w')
             ∧ log w' = log w
                 ++ [EvSessionSet "audio_data_for_processing"
                       (PyBytesIO (recorded_buffer audio_bytes))]
             ∧ session_state w' !! "audio_data_for_processing"
               = Some (PyBytesIO (recorded_buffer audio_bytes))).
Proof.
  unfold staged, resampled, resample_log, recorded_buffer, BytesIO_new.
  split; [|split; [|split; [|split]]].
  - intros v uf p seg wav Ht Hw Hd He.
    apply wp_unit. destruct v; wp_run; tidy; by rewrite write_new_buffer.
  - intros uf p seg wav Hp Ht Hw Hd He. destruct p as [|c p]; [done|].
    apply wp_unit. wp_run. tidy. by rewrite write_new_buffer.
  - intros seg. apply resampled_w2v.
  - intros audio_bytes. apply wp_unit. wp_run. tidy. done.
  - intros audio_bytes. apply wp_unit. wp_run. tidy. done.
Qed.

Lemma upload_is_normalized_recording_is_not_witness :
  let uf := mkUploadedFile "talk.mp3" "audio/mpeg" [x49; x44; x33] in
  (∃ w', upload hello_ext W2vBart (Some uf) new_session = (Ok tt, w')
         ∧ session_state w' !! "audio_data_for_processing"
           = Some (PyBytesIO (BytesIO_new [x00])))
  ∧ (∃ w', whisp_upload hello_ext (Some uf) new_session = (Ok tt, w')
           ∧ session_state w' !! "audio_data_for_processing"
             = Some (PyBytesIO (BytesIO_new [x00])))
  ∧ (∃ w', record (MicDict (Some capture)) new_session = (Ok tt, w')
           ∧ session_state w' !! "audio_data_for_processing"
             = Some (PyBytesIO (recorded_buffer capture)))
  ∧ (∃ w', whisp_record (MicDict (Some capture)) new_session = (Ok tt, w')
           ∧ session_state w' !! "audio_data_for_processing"
             = Some (PyBytesIO (recorded_buffer capture))).
Proof.
  intros uf.
  destruct (upload_is_normalized_recording_is_not hello_ext new_session)
    as (Hu & Hwu & _ & Hr & Hwr).
  destruct (Hu W2vBart uf "/tmp/tmp1.mp3" (mkSegment 44100 2 [x00]) [x00])
    as (w1 & Hrun1 & _ & Hs1); [reflexivity..|].
  destruct (Hwu uf "/tmp/tmp1.mp3" (mkSegment 44100 2 [x00]) [x00])
    as (w2 & Hrun2 & _ & Hs2); [discriminate | reflexivity..|].
  destruct (Hr capture) as (w3 & Hrun3 & _ & Hs3).
  destruct (Hwr capture) as (w4 & Hrun4 & _ & Hs4).
  repeat split; eauto.
Defined.

(** C6 as stated fails for the microphone: in w2v_bart the capture is in
    the session with no decoding, encoding or resampling in the run. *)
Lemma recording_is_stored_as_captured :
  let w' := (rerun (script hello_ext W2vBart (a_recording false)) new_session).2 in
  session_state w' !! "audio_data_for_processing"
  = Some (PyBytesIO (recorded_buffer capture))
  ∧ normalizer_ran (log w') = false
  ∧ resampler_ran (log w') = false.
Proof. vm_compute. repeat split. Qed.

(** ** Cleanup of staged files *)

(** X1: once the temporary file is created and written, a Process click
    of bart_model and w2v_bart removes it and returns, whatever the models
    do. *)
Lemma process_removes_staged_file ext v w b p :
  session_state w !! "audio_data_for_processing" = Some (PyBytesIO b) →
  ext_NamedTemporaryFile ext (fs w) ".wav" = inr p →
  ext_file_write ext p (getvalue b) = None →
  ∃ w', process ext v true w = (Ok tt, w') ∧ fs w' !! p = None.
Proof.
  intros Ha Ht Hw. apply wp_unit. destruct v; wp_run; tidy; done.
Qed.

(** X2: once the temporary file is created and written, the upload
    handler of bart_model and w2v_bart removes it and returns, whatever
    decoding and export do. *)
Lemma upload_removes_staged_file ext v w uf p :
  ext_NamedTemporaryFile ext (fs w) (splitext_ext (uf_name uf)) = inr p →
  ext_file_write ext p (uf_data uf) = None →
  ∃ w', upload ext v (Some uf) w = (Ok tt, w') ∧ fs w' !! p = None.
Proof.
  intros Ht Hw. apply wp_unit. destruct v; wp_run; tidy; done.
Qed.

(** C2 fails on the code in two ways.  In bart_model (and w2v_bart) the
    name [temp_path] is bound only after the file is created and written:
    when the creation fails, the [finally] block reads the unbound name and
    the run ends in a [NameError] raised by the cleanup.  In all three
    scripts a write that fails after the creation leaves the new file on
    disk: its path was never stored, so the cleanup does not remove it. *)
Theorem staging_cleanup_defects :
  (rerun (script no_tempfile_ext BartModel (an_upload false)) new_session).1
  = Raise (NameError "temp_path")
  ∧ (rerun (script no_tempfile_ext W2vBart (a_recording true))
       (rerun (script hello_ext W2vBart (a_recording false)) new_session).2).1
    = Raise (NameError "temp_path")
  ∧ (let (r, w') := rerun (whisp_t5 write_fails_ext (a_recording true)) new_session in
     r = Ok tt ∧ fs w' !! "/tmp/tmp4.wav" = Some [])
  ∧ (let (r, w') := rerun (script write_fails_ext BartModel (an_upload false)) new_session in
     r = Raise (NameError "temp_path") ∧ fs w' !! "/tmp/tmp4.mp3" = Some []).
Proof. vm_compute. repeat split. Qed.

(** ** A file that cannot be decoded *)

(** X4: in whisp_t5 a failed decoding resets the session audio, shows the
    error and the run goes on; the staged file is removed. *)
Lemma whisp_upload_decode_failure ext w uf p e :
  p ≠ "" →
  ext_NamedTemporaryFile ext (fs w) (splitext_ext (uf_name uf)) = inr p →
  ext_file_write ext p (uf_data uf) = None →
  ext_from_file ext (staged (fs w) p (uf_data uf)) p = inl e →
  ∃ w', whisp_upload ext (Some uf) w = (Ok tt, w')
        ∧ session_state w' !! "audio_data_for_processing" = Some PyNone
        ∧ page w' = page w
            ++ [st_audio (uf_data uf) (uf_type uf);
                st_error (lit "Error processing uploaded file: " ++ exn_str e
                  ++ lit ". Please ensure FFmpeg is installed and the file is not corrupted.")]
        ∧ fs w' !! p = None.
Proof.
  intros Hp Ht Hw Hd. unfold staged in *. apply wp_unit.
  destruct p as [|c p]; [done|]. wp_run. tidy. done.
Qed.

(** C5 fails on bart_model (and w2v_bart): the [except] branch shows the
    error and leaves the session audio as it was, so after a recording the
    failed upload leaves the recording staged for processing; whisp_t5
    resets it. *)
Theorem failed_upload_keeps_earlier_audio :
  let w1 := (rerun (script hello_ext BartModel (a_recording false)) new_session).2 in
  let (r, w2) := rerun (script corrupt_ext BartModel (an_upload false)) w1 in
  r = Ok tt
  ∧ page w2 = [st_audio [x49; x44; x33] "audio/mpeg";
               st_error (lit "Error processing uploaded file: Decoding failed. ffmpeg returned error code: 1");
               st_info (footer BartModel)]
  ∧ session_state w2 !! "audio_data_for_processing"
    = Some (PyBytesIO (recorded_buffer capture))
  ∧ session_state (rerun (whisp_t5 corrupt_ext (an_upload false))
                     (rerun (whisp_t5 hello_ext (a_recording false)) new_session).2).2
    !! "audio_data_for_processing" = Some PyNone.
Proof. vm_compute. repeat split. Qed.

(** ** The state invariant over a session *)

Lemma wp_mono {A} (m : M A) w (Q1 Q2 : res A → World → Prop) :
  wp m w Q1 → (∀ r w', Q1 r w' → Q2 r w') → wp m w Q2.
Proof. unfold wp. auto. Qed.

(** A relation between worlds that every part of a script keeps is kept
    by their sequence, also when a part raises. *)
Lemma wp_rel_bind {A B} (R : World → World → Prop) (m : M A) (f : A → M B) w :
  (∀ w1 w2 w3, R w1 w2 → R w2 w3 → R w1 w3) →
  wp m w (λ _ w1, R w w1) →
  (∀ a w1, wp (f a) w1 (λ _ w2, R w1 w2)) →
  wp (m ≫= f) w (λ _ w2, R w w2).
Proof.
  intros Htrans Hm Hf. apply wp_bind. eapply wp_mono; [exact Hm|].
  intros [a|e] w1 H1; simpl; [|done].
  eapply wp_mono; [apply Hf|]. intros r2 w2 H2. by eapply Htrans.
Qed.

Lemma whisp_step_trans w1 w2 w3 :
  whisp_step w1 w2 → whisp_step w2 w3 → whisp_step w1 w3.
Proof.
  intros [H1 (d1 & E1 & F1)] [H2 (d2 & E2 & F2)]. split; [auto|].
  exists (d1 ++ d2). by rewrite E2, E1, <- app_assoc, forallb_app, F1, F2.
Qed.

Ltac close_step :=
  tidy; rewrite ?omap_app;
  (split; [ try done
          | eexists; split; [ first [ reflexivity | symmetry; apply app_nil_r ]
                            | reflexivity ] ]).

Lemma default_step k w :
  k = "audio_data_for_processing" ∨ k = "transcript_text" ∨ k = "summary_text" →
  wp (session_default k) w (λ _ w', whisp_step w w').
Proof.
  unfold whisp_step, consistent, downloads.
  intros [-> | [-> | ->]]; wp_run; close_step.
Qed.

Lemma whisp_upload_step ext uf w :
  wp (whisp_upload ext uf) w (λ _ w', whisp_step w w').
Proof. unfold whisp_step, consistent, downloads. wp_run; close_step. Qed.

Lemma whisp_record_step rec w :
  wp (whisp_record rec) w (λ _ w', whisp_step w w').
Proof. unfold whisp_step, consistent, downloads. wp_run; close_step. Qed.

Lemma whisp_process_step ext clicked w :
  wp (whisp_process ext clicked) w (λ _ w', whisp_step w w').
Proof.
  unfold whisp_step, consistent, downloads. destruct clicked; wp_run; close_step.
Qed.

Lemma whisp_t5_step ext wd w :
  wp (whisp_t5 ext wd) w (λ _ w', whisp_step w w').
Proof.
  unfold whisp_t5.
  repeat (apply wp_rel_bind;
          [apply whisp_step_trans | apply default_step; auto | intros _ ?]).
  apply wp_rel_bind; [apply whisp_step_trans | | ].
  - destruct (audio_source_option wd);
      [apply whisp_upload_step | apply whisp_record_step].
  - intros _ ?. apply whisp_process_step.
Qed.

(** X6: in whisp_t5 the state invariant holds after every sequence of
    runs: the summary is populated only beside a non-empty transcript. *)
Lemma whisp_t5_session_consistent actions w :
  consistent "transcript_text" "summary_text" (session_state w) = true →
  consistent "transcript_text" "summary_text"
    (session_state (session (whisp_runs actions) w)) = true.
Proof.
  revert w. induction actions as [|[ext wd] actions IH]; intros w Hw; [done|].
  simpl. apply IH. unfold rerun.
  by apply (whisp_t5_step ext wd (start (fs w) (session_state w))).
Qed.

(** Every part of a bart_model or w2v_bart run keeps the invariant on
    keys. *)
Lemma script_step ext v wd w :
  wp (script ext v wd) w (λ _ w', bart_step w w').
Proof.
  assert (∀ w1 w2 w3, bart_step w1 w2 → bart_step w2 w3 → bart_step w1 w3)
    as Htrans by (unfold bart_step; auto).
  unfold script.
  apply wp_rel_bind; [done | | intros _ ?].
  { unfold bart_step, keys_consistent. wp_run; tidy; done. }
  apply wp_rel_bind; [done | | intros _ ?].
  { unfold bart_step, keys_consistent.
    destruct (audio_source_option wd), v; wp_run; tidy; done. }
  apply wp_rel_bind; [done | | intros _ ?].
  { unfold bart_step, keys_consistent.
    destruct (process_button wd), v; wp_run; tidy; try done;
      intros _; apply implb_true_r. }
  unfold bart_step, keys_consistent. wp_run; tidy; done.
Qed.

(** X7: in bart_model and w2v_bart the weaker invariant holds after every
    sequence of runs: the summary key is set only when the transcript key
    is. *)
Lemma script_session_keys_consistent v actions w :
  keys_consistent (session_state w) = true →
  keys_consistent (session_state (session (bart_runs v actions) w)) = true.
Proof.
  revert w. induction actions as [|[ext wd] actions IH]; intros w Hw; [done|].
  simpl. apply IH. unfold rerun.
  by apply (script_step ext v wd (start (fs w) (session_state w))).
Qed.

(** X8: in every Process click of the three scripts, a summary is written
    only after a non-empty transcript has been written in that click. *)
Lemma summary_written_after_transcript ext v w :
  log w = [] →
  summary_follows_transcript "transcript" "summary" false
    (log (process ext v true w).2) = true
  ∧ summary_follows_transcript "transcript_text" "summary_text" false
      (log (whisp_process ext true w).2) = true.
Proof.
  intros Hlog. split.
  - change (wp (process ext v true) w (λ _ w',
      summary_follows_transcript "transcript" "summary" false (log w') = true)).
    destruct v; wp_run; tidy; rewrite Hlog; done.
  - change (wp (whisp_process ext true) w (λ _ w',
      summary_follows_transcript "transcript_text" "summary_text" false (log w')
      = true)).
    wp_run; tidy; rewrite Hlog; done.
Qed.

(** C1 fails on bart_model and w2v_bart.  A first click stores a
    transcript and its summary; a second click whose transcription returns
    the empty text stores that text and leaves the earlier summary: the
    summary is populated beside an empty transcript. *)
Theorem stale_summary_beside_empty_transcript :
  (let w := session (bart_runs BartModel
                       [(hello_ext, a_recording true);
                        (silence_ext, a_recording true)]) new_session in
   session_state w !! "transcript" = Some (PyStr [])
   ∧ session_state w !! "summary" = Some (PyStr (lit "hi"))
   ∧ consistent "transcript" "summary" (session_state w) = false)
  ∧ (let w := session (bart_runs W2vBart
                         [(hello_ext, a_recording true);
                          (silence_ext, a_recording true)]) new_session in
     consistent "transcript" "summary" (session_state w) = false)
  ∧ (let w := session (whisp_runs
                         [(hello_ext, a_recording true);
                          (silence_ext, a_recording true)]) new_session in
     session_state w !! "transcript_text" = Some (PyStr [])
     ∧ session_state w !! "summary_text" = Some PyNone).
Proof. vm_compute. repeat split. Qed.

(** ** The downloads of whisp_t5 *)

(** C8 fails on the code: [generate_pdf] is defined and never called, and
    no run of whisp_t5 offers a download other than transcript.txt and
    summary.txt as text/plain; a click that succeeds offers these two. *)
Theorem whisp_t5_offers_text_downloads_only ext wd w :
  forallb text_download (downloads (page (rerun (whisp_t5 ext wd) w).2)) = true
  ∧ downloads (page (rerun (whisp_t5 hello_ext (a_recording true)) new_session).2)
    = [("transcript.txt", "text/plain", PyStr (lit "hello world"));
       ("summary.txt", "text/plain", PyStr (lit "hi"))].
Proof.
  split; [|vm_compute; reflexivity].
  unfold rerun.
  destruct (whisp_t5_step ext wd (start (fs w) (session_state w)))
    as [_ (ds & Hds & Hok)].
  by rewrite Hds.
Qed.

(** * More of the handlers *)

(** ** Witnesses for the cleanup, the failed decoding and the invariants *)

Lemma process_removes_staged_file_witness :
  ∃ w', process failing_speech_ext BartModel true audio_ready = (Ok tt, w')
        ∧ fs w' !! "/tmp/tmp3.wav" = None.
Proof.
  apply (process_removes_staged_file failing_speech_ext BartModel audio_ready
           one_second "/tmp/tmp3.wav"); reflexivity.
Defined.

Lemma upload_removes_staged_file_witness :
  ∃ w', upload corrupt_ext W2vBart (Some talk_mp3) new_session = (Ok tt, w')
        ∧ fs w' !! "/tmp/tmp5.mp3" = None.
Proof.
  apply (upload_removes_staged_file corrupt_ext W2vBart new_session talk_mp3
           "/tmp/tmp5.mp3"); reflexivity.
Defined.

Lemma whisp_upload_decode_failure_witness :
  ∃ w', whisp_upload corrupt_ext (Some talk_mp3) audio_ready = (Ok tt, w')
        ∧ session_state w' !! "audio_data_for_processing" = Some PyNone
        ∧ page w' = page audio_ready
            ++ [st_audio (uf_data talk_mp3) (uf_type talk_mp3);
                st_error (lit "Error processing uploaded file: "
                  ++ exn_str (Exception (lit "Decoding failed. ffmpeg returned error code: 1"))
                  ++ lit ". Please ensure FFmpeg is installed and the file is not corrupted.")]
        ∧ fs w' !! "/tmp/tmp5.mp3" = None.
Proof.
  apply (whisp_upload_decode_failure corrupt_ext audio_ready talk_mp3
           "/tmp/tmp5.mp3"); [discriminate | reflexivity..].
Defined.

Lemma whisp_t5_session_consistent_witness :
  consistent "transcript_text" "summary_text"
    (session_state
       (session (whisp_runs [(hello_ext, a_recording true);
                             (silence_ext, a_recording true)]) new_session))
  = true.
Proof.
  apply (whisp_t5_session_consistent
           [(hello_ext, a_recording true); (silence_ext, a_recording true)]
           new_session).
  reflexivity.
Defined.

Lemma script_session_keys_consistent_witness :
  keys_consistent
    (session_state
       (session (bart_runs BartModel [(hello_ext, a_recording true);
                                      (silence_ext, a_recording true)])
          new_session))
  = true.
Proof.
  apply (script_session_keys_consistent BartModel
           [(hello_ext, a_recording true); (silence_ext, a_recording true)]
           new_session).
  reflexivity.
Defined.

Lemma summary_written_after_transcript_witness :
  summary_follows_transcript "transcript" "summary" false
    (log (process hello_ext BartModel true audio_ready).2) = true
  ∧ summary_follows_transcript "transcript_text" "summary_text" false
      (log (whisp_process hello_ext true audio_ready).2) = true.
Proof.
  apply (summary_written_after_transcript hello_ext BartModel audio_ready).
  reflexivity.
Defined.

(** ** Runs that return *)

Lemma wp_ok_bind {A B} (I : World → Prop) (m : M A) (f : A → M B) w Q :
  wp m w (λ r w1, match r with Ok _ => I w1 | Raise _ => False end) →
  (∀ a w1, I w1 → wp (f a) w1 Q) →
  wp (m ≫= f) w Q.
Proof.
  intros Hm Hf. apply wp_bind. eapply wp_mono; [exact Hm|].
  intros [a|e] w1 H1; simpl; [auto | done].
Qed.

Lemma default_keeps_audio k w :
  is_set (session_state w !! "audio_data_for_processing") = true →
  wp (session_default k) w (λ r w1,
    match r with
    | Ok _ => is_set (session_state w1 !! "audio_data_for_processing") = true
    | Raise _ => False
    end).
Proof.
  intros H. wp_run; tidy; try done.
  destruct (decide (k = "audio_data_for_processing")) as [->|Hne].
  - by rewrite lookup_set.
  - by rewrite lookup_set_ne.
Qed.

(** X5: no run of whisp_t5 ends in an exception: whatever the widgets, the
    session and the collaborators do, every failure is caught and the
    script runs to its end. *)
Theorem whisp_t5_returns ext wd w : (whisp_t5 ext wd w).1 = Ok tt.
Proof.
  change (wp (whisp_t5 ext wd) w (λ r _, r = Ok tt)).
  unfold whisp_t5.
  apply wp_ok_bind with
    (I := λ w1, is_set (session_state w1 !! "audio_data_for_processing") = true).
  { wp_run; tidy; done. }
  intros _ w1 H1.
  apply wp_ok_bind with
    (I := λ w1, is_set (session_state w1 !! "audio_data_for_processing") = true).
  { by apply default_keeps_audio. }
  clear w1 H1. intros _ w1 H1.
  apply wp_ok_bind with
    (I := λ w1, is_set (session_state w1 !! "audio_data_for_processing") = true).
  { by apply default_keeps_audio. }
  clear w1 H1. intros _ w1 H1.
  apply wp_ok_bind with
    (I := λ w1, is_set (session_state w1 !! "audio_data_for_processing") = true).
  { destruct (audio_source_option wd); wp_run; tidy; done. }
  clear w1 H1. intros _ w1 H1.
  destruct (session_state w1 !! "audio_data_for_processing") as [a|] eqn:Ha;
    [|done].
  destruct (process_button wd); wp_run; tidy; done.
Qed.

(** X3: in whisp_t5, once its temporary file is created and written, the
    Process click removes it, and so does the upload handler, whatever the
    calls after the write do.  The upload needs no audio in the session. *)
Theorem whisp_staged_files_are_removed ext w :
  (∀ b p,
     p ≠ "" →
     session_state w !! "audio_data_for_processing" = Some (PyBytesIO b) →
     ext_NamedTemporaryFile ext (fs w) ".wav" = inr p →
     ext_file_write ext p (getvalue b) = None →
     fs (whisp_process ext true w).2 !! p = None)
  ∧ (∀ uf q,
       q ≠ "" →
       ext_NamedTemporaryFile ext (fs w) (splitext_ext (uf_name uf)) = inr q →
       ext_file_write ext q (uf_data uf) = None →
       fs (whisp_upload ext (Some uf) w).2 !! q = None).
Proof.
  split.
  - intros b p Hp Ha Ht Hw. destruct p as [|c0 p]; [done|].
    change (wp (whisp_process ext true) w (λ _ w', fs w' !! String c0 p = None)).
    wp_run; tidy; done.
  - intros uf q Hq Ht' Hw'. destruct q as [|c1 q]; [done|].
    change (wp (whisp_upload ext (Some uf)) w
              (λ _ w', fs w' !! String c1 q = None)).
    wp_run; tidy; done.
Qed.

Lemma whisp_staged_files_are_removed_witness :
  fs (whisp_process failing_speech_ext true audio_ready).2 !! "/tmp/tmp3.wav" = None
  ∧ fs (whisp_upload failing_speech_ext (Some talk_mp3) new_session).2
    !! "/tmp/tmp3.mp3" = None.
Proof.
  split.
  - apply (proj1 (whisp_staged_files_are_removed failing_speech_ext audio_ready)
             one_second "/tmp/tmp3.wav"); [discriminate | reflexivity..].
  - apply (proj2 (whisp_staged_files_are_removed failing_speech_ext new_session)
             talk_mp3 "/tmp/tmp3.mp3"); [discriminate | reflexivity..].
Defined.

(** ** What the handlers write *)

(** X10: the upload and record handlers of the three scripts write no
    session key but the audio, whatever their outcome (the keys the widget
    libraries keep for themselves apart). *)
Theorem input_handlers_write_audio_only ext v uf rec w k :
  k ≠ "audio_data_for_processing" →
  session_state (upload ext v uf w).2 !! k = session_state w !! k
  ∧ session_state (record rec w).2 !! k = session_state w !! k
  ∧ session_state (whisp_upload ext uf w).2 !! k = session_state w !! k
  ∧ session_state (whisp_record rec w).2 !! k = session_state w !! k.
Proof.
  intros Hk.
  assert ("audio_data_for_processing" ≠ k) as Hk' by done.
  repeat split.
  - change (wp (upload ext v uf) w (λ _ w',
      session_state w' !! k = session_state w !! k)).
    destruct v; wp_run; tidy; done.
  - change (wp (record rec) w (λ _ w',
      session_state w' !! k = session_state w !! k)).
    wp_run; tidy; done.
  - change (wp (whisp_upload ext uf) w (λ _ w',
      session_state w' !! k = session_state w !! k)).
    wp_run; tidy; done.
  - change (wp (whisp_record rec) w (λ _ w',
      session_state w' !! k = session_state w !! k)).
    wp_run; tidy; done.
Qed.

Lemma input_handlers_write_audio_only_witness :
  session_state (upload corrupt_ext BartModel (Some talk_mp3) bart_with_results).2
    !! "summary" = session_state bart_with_results !! "summary"
  ∧ session_state (record (MicDict (Some capture)) bart_with_results).2
    !! "summary" = session_state bart_with_results !! "summary"
  ∧ session_state (whisp_upload corrupt_ext (Some talk_mp3) bart_with_results).2
    !! "summary" = session_state bart_with_results !! "summary"
  ∧ session_state (whisp_record (MicDict (Some capture)) bart_with_results).2
    !! "summary" = session_state bart_with_results !! "summary".
Proof.
  apply (input_handlers_write_audio_only corrupt_ext BartModel (Some talk_mp3)
           (MicDict (Some capture)) bart_with_results "summary").
  discriminate.
Defined.

Lemma keeps_key_trans k w1 w2 w3 :
  keeps_key k w1 w2 → keeps_key k w2 w3 → keeps_key k w1 w3.
Proof.
  unfold keeps_key. intros H1 H2 H. rewrite <- (H1 H). apply H2.
  by rewrite (H1 H).
Qed.

Lemma default_keeps_key k k' w :
  wp (session_default k') w (λ _ w', keeps_key k w w').
Proof.
  unfold keeps_key. wp_run; tidy; try done.
  intros H. destruct (decide (k' = k)) as [->|Hne].
  - by rewrite Heqo in H.
  - by rewrite lookup_set_ne.
Qed.

(** X11: a run in which Process is not clicked leaves every stored value
    but the audio as it was, in the three scripts and whatever the input
    handling does: only a click writes or resets the results (the keys the
    widget libraries keep for themselves apart). *)
Theorem run_without_click_keeps_results ext v wd w k :
  process_button wd = false →
  k ≠ "audio_data_for_processing" →
  is_set (session_state w !! k) = true →
  session_state (script ext v wd w).2 !! k = session_state w !! k
  ∧ session_state (whisp_t5 ext wd w).2 !! k = session_state w !! k.
Proof.
  intros Hb Hk Hset.
  assert ("audio_data_for_processing" ≠ k) as Hk' by done.
  split.
  - revert Hset. change (wp (script ext v wd) w (λ _ w', keeps_key k w w')).
    unfold script. rewrite Hb.
    apply wp_rel_bind;
      [apply keeps_key_trans | apply default_keeps_key | intros _ ?].
    apply wp_rel_bind; [apply keeps_key_trans | | intros _ ?].
    { unfold keeps_key.
      destruct (audio_source_option wd), v; wp_run; tidy; done. }
    unfold keeps_key. wp_run; tidy; done.
  - revert Hset. change (wp (whisp_t5 ext wd) w (λ _ w', keeps_key k w w')).
    unfold whisp_t5. rewrite Hb.
    do 3 (apply wp_rel_bind;
          [apply keeps_key_trans | apply default_keeps_key | intros _ ?]).
    apply wp_rel_bind; [apply keeps_key_trans | | intros _ ?].
    { unfold keeps_key.
      destruct (audio_source_option wd); wp_run; tidy; done. }
    unfold keeps_key. wp_run; tidy; done.
Qed.

Lemma run_without_click_keeps_results_witness :
  session_state (script corrupt_ext BartModel (an_upload false) bart_with_results).2
    !! "summary" = session_state bart_with_results !! "summary"
  ∧ session_state (whisp_t5 corrupt_ext (an_upload false) bart_with_results).2
    !! "summary" = session_state bart_with_results !! "summary".
Proof.
  apply (run_without_click_keeps_results corrupt_ext BartModel (an_upload false)
           bart_with_results "summary");
    [reflexivity | discriminate | reflexivity].
Defined.

(** ** A Process click, case by case *)

(** X9: in bart_model and w2v_bart a Process click with no audio staged
    shows the warning and does nothing else: the session, the files and
    the log are as before, and stored results stay. *)
Theorem process_without_audio_changes_nothing ext v w :
  session_state w !! "audio_data_for_processing" = Some PyNone →
  process ext v true w
  = (Ok tt,
     mkWorld (fs w) (session_state w) (<["transcript" := PyNone]> (vars w))
       (page w ++ [st_warning (lit "Please upload or record audio before processing.")])
       (log w)).
Proof.
  intros Ha.
  assert (wp (process ext v true) w (λ r w', (r, w') = (Ok tt,
     mkWorld (fs w) (session_state w) (<["transcript" := PyNone]> (vars w))
       (page w ++ [st_warning (lit "Please upload or record audio before processing.")])
       (log w)))) as H.
  { wp_run. tidy. done. }
  unfold wp in H. by destruct (process ext v true w).
Qed.

Lemma process_without_audio_changes_nothing_witness :
  let w' := (process hello_ext BartModel true bart_without_audio).2 in
  session_state w' = session_state bart_without_audio
  ∧ log w' = []
  ∧ page w' = [st_warning (lit "Please upload or record audio before processing.")].
Proof.
  intros w'. subst w'.
  rewrite (process_without_audio_changes_nothing hello_ext BartModel
             bart_without_audio); [|reflexivity].
  repeat split; reflexivity.
Defined.

(** X14: a Process click rewinds the shared buffer before reading it: the
    bytes handed to the temporary file are all the bytes of the buffer,
    wherever an earlier click left its cursor. *)
Theorem click_stages_whole_buffer ext v w b p :
  session_state w !! "audio_data_for_processing" = Some (PyBytesIO b) →
  ext_NamedTemporaryFile ext (fs w) ".wav" = inr p →
  (∃ rest, log (process ext v true w).2
           = log w ++ [EvNamedTemporaryFile ".wav"; EvFileWrite p (getvalue b)]
               ++ rest)
  ∧ (∃ rest, log (whisp_process ext true w).2
             = log w ++ [EvSessionSet "transcript_text" PyNone;
                         EvSessionSet "summary_text" PyNone;
                         EvNamedTemporaryFile ".wav";
                         EvFileWrite p (getvalue b)] ++ rest).
Proof.
  intros Ha Ht. split.
  - change (wp (process ext v true) w (λ _ w', ∃ rest, log w'
      = log w ++ [EvNamedTemporaryFile ".wav"; EvFileWrite p (getvalue b)]
          ++ rest)).
    destruct v; wp_run; tidy; eexists; reflexivity.
  - change (wp (whisp_process ext true) w (λ _ w', ∃ rest, log w'
      = log w ++ [EvSessionSet "transcript_text" PyNone;
                  EvSessionSet "summary_text" PyNone;
                  EvNamedTemporaryFile ".wav";
                  EvFileWrite p (getvalue b)] ++ rest)).
    wp_run; tidy; eexists; reflexivity.
Qed.

Lemma click_stages_whole_buffer_witness :
  (∃ rest, log (process hello_ext BartModel true bart_with_results).2
           = log bart_with_results
               ++ [EvNamedTemporaryFile ".wav";
                   EvFileWrite "/tmp/tmp1.wav" (getvalue read_to_end)] ++ rest)
  ∧ (∃ rest, log (whisp_process hello_ext true bart_with_results).2
             = log bart_with_results
                 ++ [EvSessionSet "transcript_text" PyNone;
                     EvSessionSet "summary_text" PyNone;
                     EvNamedTemporaryFile ".wav";
                     EvFileWrite "/tmp/tmp1.wav" (getvalue read_to_end)] ++ rest).
Proof.
  apply (click_stages_whole_buffer hello_ext BartModel bart_with_results
           read_to_end "/tmp/tmp1.wav"); reflexivity.
Defined.

(** X12: in bart_model and w2v_bart, when the summarizer raises after a
    transcription, the click returns with the new transcript stored, the
    summary as it was before the click, the error shown with the message
    of the exception, and the staged file removed. *)
Theorem summarizer_failure_keeps_transcript ext v w b p text e :
  session_state w !! "audio_data_for_processing" = Some (PyBytesIO b) →
  ext_NamedTemporaryFile ext (fs w) ".wav" = inr p →
  ext_file_write ext p (getvalue b) = None →
  transcription ext v (staged (fs w) p (getvalue b)) p = inr text →
  text ≠ [] →
  ext_summarizer ext text 150 40 false = inl e →
  ∃ w', process ext v true w = (Ok tt, w')
        ∧ session_state w' !! "transcript" = Some (PyStr text)
        ∧ session_state w' !! "summary" = session_state w !! "summary"
        ∧ page w' = page w
            ++ [st_subheader (lit "Processing Results:");
                st_success (lit "Transcription Complete!");
                st_error (lit "Summarization failed: " ++ exn_str e)]
        ∧ fs w' !! p = None.
Proof.
  intros Ha Ht Hw Htr Hne Hs.
  unfold transcription, staged in *.
  destruct text as [|c text]; [done|].
  apply wp_unit. destruct v.
  - destruct (ext_load_audio _ _ _) as [e0|a] eqn:Hl; [discriminate|].
    wp_run. tidy. done.
  - wp_run. tidy. done.
Qed.

Lemma summarizer_failure_keeps_transcript_witness :
  ∃ w', process failing_summary_ext W2vBart true bart_with_results = (Ok tt, w')
        ∧ session_state w' !! "transcript" = Some (PyStr (lit "hello world"))
        ∧ session_state w' !! "summary" = session_state bart_with_results !! "summary"
        ∧ page w' = page bart_with_results
            ++ [st_subheader (lit "Processing Results:");
                st_success (lit "Transcription Complete!");
                st_error (lit "Summarization failed: "
                          ++ exn_str (Exception (lit "index out of range in self")))]
        ∧ fs w' !! "/tmp/tmp6.wav" = None.
Proof.
  apply (summarizer_failure_keeps_transcript failing_summary_ext W2vBart
           bart_with_results read_to_end "/tmp/tmp6.wav");
    [reflexivity.. | discriminate | reflexivity].
Defined.

(** X13: in whisp_t5, when the temporary file cannot be created, the click
    shows the error with the message of the exception and the warning that
    summarization is skipped, calls no model, leaves the files as they
    were, and returns. *)
Theorem whisp_staging_failure_is_reported ext w b e :
  session_state w !! "audio_data_for_processing" = Some (PyBytesIO b) →
  ext_NamedTemporaryFile ext (fs w) ".wav" = inl e →
  ∃ w', whisp_process ext true w = (Ok tt, w')
        ∧ fs w' = fs w
        ∧ page w' = page w
            ++ [st_subheader (lit "Processing Results:");
                st_error (lit "Transcription failed: " ++ exn_str e
                  ++ lit ". Please check the audio file and ensure Whisper model loaded correctly.");
                st_warning (lit "Skipping summarization as no transcript was generated.")]
        ∧ log w' = log w
            ++ [EvSessionSet "transcript_text" PyNone;
                EvSessionSet "summary_text" PyNone;
                EvNamedTemporaryFile ".wav"].
Proof.
  intros Ha Ht. apply wp_unit. wp_run. tidy. done.
Qed.

Lemma whisp_staging_failure_is_reported_witness :
  ∃ w', whisp_process no_tempfile_ext true audio_ready = (Ok tt, w')
        ∧ fs w' = fs audio_ready
        ∧ page w' = page audio_ready
            ++ [st_subheader (lit "Processing Results:");
                st_error (lit "Transcription failed: "
                  ++ exn_str (Exception (lit "[Errno 28] No space left on device"))
                  ++ lit ". Please check the audio file and ensure Whisper model loaded correctly.");
                st_warning (lit "Skipping summarization as no transcript was generated.")]
        ∧ log w' = log audio_ready
            ++ [EvSessionSet "transcript_text" PyNone;
                EvSessionSet "summary_text" PyNone;
                EvNamedTemporaryFile ".wav"].
Proof.
  apply (whisp_staging_failure_is_reported no_tempfile_ext audio_ready
           one_second); reflexivity.
Defined.

(** ** The click of whisp_t5 *)

(** X17: in whisp_t5 a click whose staging, transcription (non-empty) and
    summarization succeed resets both results, stages and transcribes the
    buffer, stores the transcript, removes the staged file, summarizes
    with max_length 150, min_length 40 and no sampling, stores the summary,
    and offers the two text downloads with exactly the stored values. *)
Theorem whisp_click_stores_and_offers_results ext w b p text summary :
  p ≠ "" →
  session_state w !! "audio_data_for_processing" = Some (PyBytesIO b) →
  ext_NamedTemporaryFile ext (fs w) ".wav" = inr p →
  ext_file_write ext p (getvalue b) = None →
  transcription ext BartModel (staged (fs w) p (getvalue b)) p = inr text →
  text ≠ [] →
  ext_summarizer ext text 150 40 false = inr summary →
  ∃ w', whisp_process ext true w = (Ok tt, w')
        ∧ session_state w' !! "transcript_text" = Some (PyStr text)
        ∧ session_state w' !! "summary_text" = Some (PyStr summary)
        ∧ downloads (page w')
          = downloads (page w)
            ++ [("transcript.txt", "text/plain", PyStr text);
                ("summary.txt", "text/plain", PyStr summary)]
        ∧ fs w' !! p = None
        ∧ log w' = log w
            ++ [EvSessionSet "transcript_text" PyNone;
                EvSessionSet "summary_text" PyNone;
                EvNamedTemporaryFile ".wav"; EvFileWrite p (getvalue b)]
            ++ transcription_log ext BartModel (staged (fs w) p (getvalue b)) p
            ++ [EvSessionSet "transcript_text" (PyStr text); EvRemove p;
                EvSummarizer text 150 40 false;
                EvSessionSet "summary_text" (PyStr summary)].
Proof.
  intros Hp Ha Ht Hw Htr Hne Hs.
  unfold transcription, transcription_log, staged, downloads in *.
  destruct text as [|c text]; [done|].
  destruct p as [|c0 p]; [done|].
  destruct (ext_load_audio _ _ _) as [e0|a] eqn:Hl; [discriminate|].
  apply wp_unit. wp_run. tidy. rewrite ?omap_app. done.
Qed.

Lemma whisp_click_stores_and_offers_results_witness :
  ∃ w', whisp_process hello_ext true whisp_with_results = (Ok tt, w')
        ∧ session_state w' !! "transcript_text" = Some (PyStr (lit "hello world"))
        ∧ session_state w' !! "summary_text" = Some (PyStr (lit "hi"))
        ∧ downloads (page w')
          = downloads (page whisp_with_results)
            ++ [("transcript.txt", "text/plain", PyStr (lit "hello world"));
                ("summary.txt", "text/plain", PyStr (lit "hi"))]
        ∧ fs w' !! "/tmp/tmp1.wav" = None
        ∧ log w' = log whisp_with_results
            ++ [EvSessionSet "transcript_text" PyNone;
                EvSessionSet "summary_text" PyNone;
                EvNamedTemporaryFile ".wav";
                EvFileWrite "/tmp/tmp1.wav" (getvalue one_second)]
            ++ transcription_log hello_ext BartModel
                 (staged (fs whisp_with_results) "/tmp/tmp1.wav" (getvalue one_second))
                 "/tmp/tmp1.wav"
            ++ [EvSessionSet "transcript_text" (PyStr (lit "hello world"));
                EvRemove "/tmp/tmp1.wav";
                EvSummarizer (lit "hello world") 150 40 false;
                EvSessionSet "summary_text" (PyStr (lit "hi"))].
Proof.
  apply (whisp_click_stores_and_offers_results hello_ext whisp_with_results
           one_second "/tmp/tmp1.wav" (lit "hello world") (lit "hi"));
    [discriminate | reflexivity.. | discriminate | reflexivity].
Defined.

(** X18: in whisp_t5 a transcription that returns the empty text is stored
    and offered as transcript.txt; the summarizer is not called, the
    summary stays [None], and the page ends with the warning that
    summarization is skipped. *)
Theorem whisp_empty_transcript_skips_summary ext w b p :
  p ≠ "" →
  session_state w !! "audio_data_for_processing" = Some (PyBytesIO b) →
  ext_NamedTemporaryFile ext (fs w) ".wav" = inr p →
  ext_file_write ext p (getvalue b) = None →
  transcription ext BartModel (staged (fs w) p (getvalue b)) p = inr [] →
  ∃ w', whisp_process ext true w = (Ok tt, w')
        ∧ session_state w' !! "transcript_text" = Some (PyStr [])
        ∧ session_state w' !! "summary_text" = Some PyNone
        ∧ downloads (page w')
          = downloads (page w) ++ [("transcript.txt", "text/plain", PyStr [])]
        ∧ last (page w')
          = Some (st_warning (lit "Skipping summarization as no transcript was generated."))
        ∧ log w' = log w
            ++ [EvSessionSet "transcript_text" PyNone;
                EvSessionSet "summary_text" PyNone;
                EvNamedTemporaryFile ".wav"; EvFileWrite p (getvalue b)]
            ++ transcription_log ext BartModel (staged (fs w) p (getvalue b)) p
            ++ [EvSessionSet "transcript_text" (PyStr []); EvRemove p].
Proof.
  intros Hp Ha Ht Hw Htr.
  unfold transcription, transcription_log, staged, downloads in *.
  destruct p as [|c0 p]; [done|].
  destruct (ext_load_audio _ _ _) as [e0|a] eqn:Hl; [discriminate|].
  apply wp_unit. wp_run. tidy. rewrite ?omap_app, last_app. done.
Qed.

Lemma whisp_empty_transcript_skips_summary_witness :
  ∃ w', whisp_process silence_ext true whisp_with_results = (Ok tt, w')
        ∧ session_state w' !! "transcript_text" = Some (PyStr [])
        ∧ session_state w' !! "summary_text" = Some PyNone
        ∧ downloads (page w')
          = downloads (page whisp_with_results)
            ++ [("transcript.txt", "text/plain", PyStr [])]
        ∧ last (page w')
          = Some (st_warning (lit "Skipping summarization as no transcript was generated."))
        ∧ log w' = log whisp_with_results
            ++ [EvSessionSet "transcript_text" PyNone;
                EvSessionSet "summary_text" PyNone;
                EvNamedTemporaryFile ".wav";
                EvFileWrite "/tmp/tmp2.wav" (getvalue one_second)]
            ++ transcription_log silence_ext BartModel
                 (staged (fs whisp_with_results) "/tmp/tmp2.wav" (getvalue one_second))
                 "/tmp/tmp2.wav"
            ++ [EvSessionSet "transcript_text" (PyStr []);
                EvRemove "/tmp/tmp2.wav"].
Proof.
  apply (whisp_empty_transcript_skips_summary silence_ext whisp_with_results
           one_second "/tmp/tmp2.wav"); [discriminate | reflexivity..].
Defined.

(** X19: in whisp_t5 an upload that is staged, decoded and exported stores
    the exported WAV bytes as a rewound buffer, shows the player and the
    length of the audio, and removes the staged file. *)
Theorem whisp_upload_stores_wav ext w uf p seg wav :
  p ≠ "" →
  ext_NamedTemporaryFile ext (fs w) (splitext_ext (uf_name uf)) = inr p →
  ext_file_write ext p (uf_data uf) = None →
  ext_from_file ext (staged (fs w) p (uf_data uf)) p = inr seg →
  ext_export ext seg "wav" = inr wav →
  ∃ w', whisp_upload ext (Some uf) w = (Ok tt, w')
        ∧ session_state w' !! "audio_data_for_processing"
          = Some (PyBytesIO (BytesIO_new wav))
        ∧ page w' = page w
            ++ [st_audio (uf_data uf) (uf_type uf);
                st_info (lit "Uploaded audio length: "
                         ++ ext_duration_2f ext seg ++ lit " sec")]
        ∧ fs w' !! p = None.
Proof.
  intros Hp Ht Hw Hd He. unfold staged in *.
  destruct p as [|c p]; [done|].
  apply wp_unit. wp_run. tidy. by rewrite write_new_buffer.
Qed.

Lemma whisp_upload_stores_wav_witness :
  ∃ w', whisp_upload hello_ext (Some talk_mp3) new_session = (Ok tt, w')
        ∧ session_state w' !! "audio_data_for_processing"
          = Some (PyBytesIO (BytesIO_new [x00]))
        ∧ page w' = page new_session
            ++ [st_audio (uf_data talk_mp3) (uf_type talk_mp3);
                st_info (lit "Uploaded audio length: "
                         ++ ext_duration_2f hello_ext (mkSegment 44100 2 [x00])
                         ++ lit " sec")]
        ∧ fs w' !! "/tmp/tmp1.mp3" = None.
Proof.
  apply (whisp_upload_stores_wav hello_ext new_session talk_mp3 "/tmp/tmp1.mp3"
           (mkSegment 44100 2 [x00]) [x00]);
    [discriminate | reflexivity..].
Defined.

(** ** Where the results are shown *)

(** X15: whisp_t5 renders the results and their downloads only inside the
    click: a run in which Process is not clicked offers no download,
    whatever the session holds. *)
Theorem whisp_results_vanish_without_click ext wd w :
  process_button wd = false →
  downloads (page (rerun (whisp_t5 ext wd) w).2) = [].
Proof.
  intros Hb. unfold rerun.
  change (wp (whisp_t5 ext wd) (start (fs w) (session_state w))
            (λ _ w', downloads (page w')
                     = downloads (page (start (fs w) (session_state w))))).
  generalize (start (fs w) (session_state w)). clear w. intros w.
  unfold whisp_t5. rewrite Hb.
  do 3 (apply (wp_rel_bind (λ w1 w2, downloads (page w2) = downloads (page w1)));
        [intros; congruence | unfold downloads; wp_run; tidy; done | intros _ ?]).
  apply (wp_rel_bind (λ w1 w2, downloads (page w2) = downloads (page w1)));
    [intros; congruence | | intros _ ?].
  { unfold downloads.
    destruct (audio_source_option wd); wp_run; tidy;
      rewrite ?omap_app; simpl; by rewrite ?app_nil_r. }
  unfold downloads. wp_run; tidy; done.
Qed.

Lemma whisp_results_vanish_without_click_witness :
  downloads (page (rerun (whisp_t5 hello_ext (a_recording false))
                     whisp_with_results).2) = [].
Proof.
  apply (whisp_results_vanish_without_click hello_ext (a_recording false)
           whisp_with_results).
  reflexivity.
Defined.

(** X16: bart_model and w2v_bart render the stored results in every run:
    a run in microphone mode without a click returns and offers the stored
    transcript and summary again, unchanged. *)
Theorem stored_results_are_offered_again ext v wd w :
  audio_source_option wd = RecordLiveAudio →
  process_button wd = false →
  ∃ w', rerun (script ext v wd) w = (Ok tt, w')
        ∧ downloads (page w')
          = stored_download (session_state w) "transcript" "transcript.txt"
            ++ stored_download (session_state w) "summary" "summary.txt".
Proof.
  intros Hs Hb. unfold rerun, stored_download, downloads.
  apply wp_unit. unfold script. rewrite Hs, Hb.
  wp_run; tidy; rewrite ?omap_app; done.
Qed.

Lemma stored_results_are_offered_again_witness :
  ∃ w', rerun (script hello_ext BartModel (a_recording false)) bart_with_results
        = (Ok tt, w')
        ∧ downloads (page w')
          = stored_download (session_state bart_with_results)
              "transcript" "transcript.txt"
            ++ stored_download (session_state bart_with_results)
                 "summary" "summary.txt".
Proof.
  apply (stored_results_are_offered_again hello_ext BartModel
           (a_recording false) bart_with_results); reflexivity.
Defined.

(** ** The PDF of text within latin-1 *)

(** X20: for a transcript and a non-empty summary within latin-1,
    [generate_pdf] lays out both texts exactly as they are and shows no
    warning, with any of the fpdf releases: the world is unchanged. *)
Theorem generate_pdf_keeps_latin1_text lib transcript summary w :
  forallb latin1 transcript = true →
  forallb latin1 summary = true →
  summary ≠ [] →
  generate_pdf lib transcript (Some summary) w
  = (Ok [AddPage; SetFont "Arial" 12;
         MultiCell 0 10 (lit "--- Transcript ---"); Ln 5;
         MultiCell 0 10 transcript; Ln 10;
         MultiCell 0 10 (lit "--- Summary ---"); Ln 5;
         MultiCell 0 10 summary], w).
Proof.
  intros Ht Hs Hne. destruct lib.
  3: { rewrite generate_pdf_pyfpdf. unfold pdf_output.
       pose proof (encodable_as_laid_out transcript (Some summary)) as He.
       unfold within_latin1 in He.
       destruct summary as [|c r]; [done|].
       cbv beta iota in He |- *. rewrite Ht, Hs in He. by rewrite He. }
  all: destruct summary as [|c r]; [done|]; unfold generate_pdf;
    rewrite run_bind, multi_cell_latin1 by apply header_latin1;
    cbv beta iota zeta; rewrite run_bind, guarded_multi_cell_latin1 by done;
    cbv beta iota; rewrite run_bind, run_bind, multi_cell_latin1
      by apply header_latin1;
    cbv beta iota; rewrite guarded_multi_cell_latin1 by done;
    reflexivity.
Qed.

Lemma generate_pdf_keeps_latin1_text_witness :
  generate_pdf Fpdf2 (lit "caf" ++ [233%N]) (Some (lit "hi")) new_session
  = (Ok [AddPage; SetFont "Arial" 12;
         MultiCell 0 10 (lit "--- Transcript ---"); Ln 5;
         MultiCell 0 10 (lit "caf" ++ [233%N]); Ln 10;
         MultiCell 0 10 (lit "--- Summary ---"); Ln 5;
         MultiCell 0 10 (lit "hi")], new_session).
Proof.
  apply (generate_pdf_keeps_latin1_text Fpdf2 (lit "caf" ++ [233%N]) (lit "hi")
           new_session); [reflexivity | reflexivity | discriminate].
Defined.

(** X21: the replacement of [generate_pdf] keeps the number of code
    points, leaves nothing above 255, and changes nothing when applied
    again. *)
Theorem encode_replace_decode_stable txt :
  length (encode_replace_decode txt) = length txt
  ∧ encode_replace_decode (encode_replace_decode txt) = encode_replace_decode txt
  ∧ (∀ c, c ∈ encode_replace_decode txt → (c ≤ 255)%N).
Proof.
  split; [|split].
  - unfold encode_replace_decode. apply length_map.
  - apply encode_replace_decode_id, encode_replace_decode_latin1.
  - intros c Hc.
    pose proof (encode_replace_decode_latin1 txt) as H.
    rewrite forallb_forall in H. apply list_elem_of_In in Hc.
    specialize (H c Hc). unfold latin1 in H. by apply N.leb_le.
Qed.

Lemma encode_replace_decode_stable_witness :
  length (encode_replace_decode [8217%N; 97%N]) = 2
  ∧ encode_replace_decode [8217%N; 97%N] = [63%N; 97%N].
Proof.
  split.
  - exact (proj1 (encode_replace_decode_stable [8217%N; 97%N])).
  - reflexivity.
Defined.
